(** * ctxcore.rnkdb: whole genome ranking databases

    A shallow embedding of [src/ctxcore/rnkdb.py] and the properties of its
    adapter layer: the thread-count setting, the file-backed database, the
    in-memory decorator and the [opendb] factory.

    Python objects are modelled as values carrying their identity, methods
    as computations in a state-and-exception monad over a [World] that
    holds the instances, the caches of the memoized properties and the
    sequence of calls made so far. *)

From Stdlib Require Import ZArith Ascii String List Bool.
From stdpp Require Import base option list gmap sets strings.

Set Default Proof Using "Type".

Local Open Scope string_scope.
Local Open Scope list_scope.
Local Open Scope Z_scope.

(** ** Python values used by the module *)

Module Py.

(** Exceptions the module raises or lets through. *)
Inductive exn : Type :=
| AssertionError (msg : string)   (* a failed [assert cond, msg] *)
| ValueError (msg : string)       (* [raise ValueError(msg)] *)
| ExternalError (msg : string).   (* raised inside a library, passed through *)

Inductive result (A : Type) : Type :=
| Ok (a : A)
| Raise (e : exn).
Arguments Ok {A} a.
Arguments Raise {A} e.

(** Truth value of a [str]: the empty string is false. *)
Definition truthy (s : string) : bool :=
  match s with
  | EmptyString => false
  | String _ _ => true
  end.

(** *** [int(s)] on ASCII text

    Surrounding white space is stripped, one sign is accepted, and the
    digits may be grouped by single underscores. [None] stands for
    [ValueError]. *)

Definition is_space (a : ascii) : bool :=
  let n := nat_of_ascii a in
  ((9 <=? n)%nat && (n <=? 13)%nat) || (n =? 32)%nat.

Definition digit_val (a : ascii) : option Z :=
  let n := nat_of_ascii a in
  if ((48 <=? n)%nat && (n <=? 57)%nat)%bool then Some (Z.of_nat (n - 48)) else None.

Fixpoint lstrip (l : list ascii) : list ascii :=
  match l with
  | a :: l' => if is_space a then lstrip l' else l
  | [] => []
  end.

Definition strip (l : list ascii) : list ascii :=
  rev (lstrip (rev (lstrip l))).

(** [after_digit] tells whether the previous character was a digit: an
    underscore is only legal there, and the literal may not end on one. *)
Fixpoint digits (acc : Z) (after_digit : bool) (l : list ascii) : option Z :=
  match l with
  | [] => if after_digit then Some acc else None
  | a :: l' =>
      match digit_val a with
      | Some d => digits (10 * acc + d) true l'
      | None =>
          if (Ascii.eqb a "_" && after_digit)%bool then digits acc false l' else None
      end
  end.

Definition int_ascii (s : string) : option Z :=
  match strip (list_ascii_of_string s) with
  | a :: l =>
      if Ascii.eqb a "-" then Z.opp <$> digits 0 false l
      else if Ascii.eqb a "+" then digits 0 false l
      else digits 0 false (a :: l)
  | [] => None
  end.

(** *** [os.path.splitext] (posixpath)

    The extension starts at the last dot of the last path component,
    unless that component consists of leading dots only up to there. *)

Fixpoint rfind_from (c : ascii) (p : string) (i found : Z) : Z :=
  match p with
  | EmptyString => found
  | String a p' => rfind_from c p' (i + 1) (if Ascii.eqb a c then i else found)
  end.

(** [p.rfind(c)]: index of the last occurrence, [-1] when there is none. *)
Definition rfind (p : string) (c : ascii) : Z := rfind_from c p 0 (-1).

Definition slice_to (p : string) (i : Z) : string :=
  substring 0 (Z.to_nat i) p.

Definition slice_from (p : string) (i : Z) : string :=
  substring (Z.to_nat i) (String.length p - Z.to_nat i) p.

(** The loop that skips leading dots; [n] counts the indices left before
    [dotIndex]. *)
Fixpoint splitext_scan (p : string) (filenameIndex dotIndex : Z) (n : nat)
  : option (string * string) :=
  match n with
  | O => None
  | S n' =>
      if negb (String.eqb (substring (Z.to_nat filenameIndex) 1 p) ".")
      then Some (slice_to p dotIndex, slice_from p dotIndex)
      else splitext_scan p (filenameIndex + 1) dotIndex n'
  end.

Definition splitext (p : string) : string * string :=
  let sepIndex := rfind p "/" in
  let dotIndex := rfind p "." in
  if dotIndex >? sepIndex then
    let filenameIndex := sepIndex + 1 in
    match splitext_scan p filenameIndex dotIndex (Z.to_nat (dotIndex - filenameIndex)) with
    | Some r => r
    | None => (p, "")
    end
  else (p, "").

End Py.
Export Py.

(** ** PyArrowThreads *)

Module PyArrowThreads.
Section Resolve.

(** The built-in [int] applied to a string; [None] when it raises
    [ValueError]. *)
Variable int : string → option Z.

(** The class body: the value bound to [pyarrow_threads] once the class
    statement has run, given the process environment. *)
Definition pyarrow_threads (environ : gmap string string) : Z :=
  let pyarrow_threads := 4 in
  match environ !! "PYARROW_THREADS" with
  | Some v =>
      if truthy v then
        let pyarrow_threads :=
          match int v with
          | Some n => n
          | None => pyarrow_threads      (* except ValueError: pass *)
          end in
        if pyarrow_threads <? 1 then 1 else pyarrow_threads
      else pyarrow_threads
  | None => pyarrow_threads
  end.

(** [set_nbr_pyarrow_threads(nbr_threads)]: the count handed to
    [pa.set_cpu_count]. [None] and [0] are both false in Python. *)
Definition set_nbr_pyarrow_threads (environ : gmap string string)
    (nbr_threads : option Z) : Z :=
  match nbr_threads with
  | Some n => if n =? 0 then pyarrow_threads environ else n
  | None => pyarrow_threads environ
  end.

End Resolve.
End PyArrowThreads.

(** ** Collaborators outside this module *)

(** A pandas table of ranks: the row labels (features) and, in column
    order, each gene column with one rank per row. No code of the module
    assigns into a table, so tables are plain values. *)
Record DataFrame : Type := {
  df_index : list string;
  df_data : list (string * list Z)
}.

(** [df.columns] *)
Definition columns (df : DataFrame) : list string := (df_data df).*1.

(** [columns.isin(values)]: one flag per column label. *)
Definition isin (cols values : list string) : list bool :=
  (λ c, bool_decide (c ∈ values)) <$> cols.

(** [df.loc[:, mask]]: every row, the columns whose flag is set, in the
    order of [df]. The mask the module passes has one flag per column. *)
Definition loc_columns (df : DataFrame) (mask : list bool) : DataFrame :=
  {| df_index := df_index df;
     df_data := (filter (λ cm, cm.2 = true) (zip (df_data df) mask)).*1 |}.

Module GeneSignature.
(** Only the [genes] accessor of a signature is consumed. *)
Record t : Type := { genes : list string }.
End GeneSignature.

Inductive RegionsOrGenesType : Type := REGIONS | GENES.

#[global] Instance RegionsOrGenesType_eq_dec : EqDecision RegionsOrGenesType.
Proof. solve_decision. Defined.

(** [datatypes.RegionOrGeneIDs]: identifiers with their kind. *)
Record RegionOrGeneIDs : Type := {
  ids : list string;
  rg_type : RegionsOrGenesType
}.

(** The operations of [ctdb.CisTargetDatabase] and the constructor of
    [RegionOrGeneIDs] that the module calls; [init_ct_db] is always called
    with the pyarrow engine. Here a handle and an identifier collection
    determine the table that is materialised ([load_on] below passes the
    state of a handle whose answers depend on what it served before);
    [Raise] is an error of the store itself. *)
Class Ctdb : Type := {
  CisTargetDatabase : Type;
  init_ct_db : string → result CisTargetDatabase;
  nbr_total_region_or_gene_ids : CisTargetDatabase → Z;
  all_region_or_gene_ids : CisTargetDatabase → RegionOrGeneIDs;
  subset_to_pandas : CisTargetDatabase → RegionOrGeneIDs → result DataFrame;
  RegionOrGeneIDs_init : gset string → RegionsOrGenesType → RegionOrGeneIDs
}.

(** Modelled from the spec: the contract of the external ranking store,
    whose code (modules [ctdb] and [datatypes]) is not part of this module.
    The store exposes its total identifier count and its full identifier
    list with a type tag; an identifier collection built from a set holds
    exactly that set; materialising a collection of identifiers of the
    store's type that it knows yields a table with exactly those gene
    columns and with every feature row. *)
Class CtdbContract `{Ctdb} : Prop := {
  nbr_total_is_count : ∀ ct_db,
    nbr_total_region_or_gene_ids ct_db
    = Z.of_nat (length (ids (all_region_or_gene_ids ct_db)));
  RegionOrGeneIDs_init_ids : ∀ s ty,
    list_to_set (ids (RegionOrGeneIDs_init s ty)) = s;
  RegionOrGeneIDs_init_type : ∀ s ty,
    rg_type (RegionOrGeneIDs_init s ty) = ty;
  subset_to_pandas_columns : ∀ ct_db r,
    rg_type r = rg_type (all_region_or_gene_ids ct_db) →
    ids r ⊆ ids (all_region_or_gene_ids ct_db) →
    ∃ df, subset_to_pandas ct_db r = Ok df
          ∧ list_to_set (columns df) =@{gset string} list_to_set (ids r);
  subset_to_pandas_rows : ∀ ct_db r r' df df',
    subset_to_pandas ct_db r = Ok df →
    subset_to_pandas ct_db r' = Ok df' →
    df_index df = df_index df'
}.

(** ** The ranking databases *)

Section RankingDatabases.
Context `{Ctdb}.

(** [os.path.isfile] *)
Variable isfile : string → bool.

(** Instances of the two concrete classes. [oid] is the identity of the
    object; the other arguments are its attributes, which no method
    assigns after [__init__]. *)
Inductive RankingDatabase : Type :=
| FeatherRankingDatabase (oid : nat) (_name _fname : string) (ct_db : CisTargetDatabase)
| MemoryDecorator (oid : nat) (_name : string) (_db : RankingDatabase) (_df : DataFrame).

Definition oid (self : RankingDatabase) : nat :=
  match self with
  | FeatherRankingDatabase i _ _ _ => i
  | MemoryDecorator i _ _ _ => i
  end.

Definition _name (self : RankingDatabase) : string :=
  match self with
  | FeatherRankingDatabase _ n _ _ => n
  | MemoryDecorator _ n _ _ => n
  end.

Inductive method : Type :=
| m_name | m_total_genes | m_genes | m_geneset | m_load_full | m_load.

#[global] Instance method_eq_dec : EqDecision method.
Proof. solve_decision. Defined.

(** What is recorded of a run: entering a method or property of an
    instance, and the two calls into the store that do input. *)
Inductive event : Type :=
| Call (m : method) (oid : nat)
| InitCtDb (fname : string)
| SubsetToPandas (r : RegionOrGeneIDs).

(** The interpreter state the module can touch: the instances created so
    far, the caches of the three memoized properties (keyed by instance),
    and the calls made. *)
Record World : Type := {
  next_oid : nat;
  objs : gmap nat RankingDatabase;
  memo_total_genes : gmap nat Z;
  memo_genes : gmap nat (list string);
  memo_geneset : gmap nat (gset string);
  calls : list event
}.

Definition empty_world : World :=
  {| next_oid := 0%nat; objs := ∅; memo_total_genes := ∅; memo_genes := ∅;
     memo_geneset := ∅; calls := [] |}.

(** The world with further calls recorded. *)
Definition logged (w : World) (es : list event) : World :=
  {| next_oid := next_oid w; objs := objs w; memo_total_genes := memo_total_genes w;
     memo_genes := memo_genes w; memo_geneset := memo_geneset w;
     calls := calls w ++ es |}.

Definition set_memo_total_genes (c : gmap nat Z) (w : World) : World :=
  {| next_oid := next_oid w; objs := objs w; memo_total_genes := c;
     memo_genes := memo_genes w; memo_geneset := memo_geneset w; calls := calls w |}.

Definition set_memo_genes (c : gmap nat (list string)) (w : World) : World :=
  {| next_oid := next_oid w; objs := objs w; memo_total_genes := memo_total_genes w;
     memo_genes := c; memo_geneset := memo_geneset w; calls := calls w |}.

Definition set_memo_geneset (c : gmap nat (gset string)) (w : World) : World :=
  {| next_oid := next_oid w; objs := objs w; memo_total_genes := memo_total_genes w;
     memo_genes := memo_genes w; memo_geneset := c; calls := calls w |}.

(** *** Computations *)

Definition M (A : Type) : Type := World → result A * World.

#[global] Instance M_ret : MRet M := λ A a w, (Ok a, w).

#[global] Instance M_bind : MBind M := λ A B k m w,
  match m w with
  | (Ok a, w') => k a w'
  | (Raise e, w') => (Raise e, w')
  end.

Definition raise {A} (e : exn) : M A := λ w, (Raise e, w).

Definition lift {A} (r : result A) : M A := λ w, (r, w).

(** [assert cond, msg] *)
Definition assert_ (cond : bool) (msg : string) : M unit :=
  if cond then mret () else raise (AssertionError msg).

Definition emit (e : event) : M unit := λ w, (Ok (), logged w [e]).

(** A new instance gets the next identity and is entered in [objs]. *)
Definition new_object (mk : nat → RankingDatabase) : M RankingDatabase := λ w,
  let self := mk (next_oid w) in
  (Ok self,
   {| next_oid := S (next_oid w); objs := <[next_oid w := self]> (objs w);
      memo_total_genes := memo_total_genes w; memo_genes := memo_genes w;
      memo_geneset := memo_geneset w; calls := calls w |}).

(** [cytoolz.memoize] on a method of one argument: the cache is looked up
    under the instance; on a miss the body runs and its value is stored. *)
Definition memoize {V} (cache : World → gmap nat V) (store : gmap nat V → World → World)
    (key : nat) (body : M V) : M V := λ w,
  match cache w !! key with
  | Some v => (Ok v, w)
  | None =>
      match body w with
      | (Ok v, w') => (Ok v, store (<[key := v]> (cache w')) w')
      | (Raise e, w') => (Raise e, w')
      end
  end.

(** *** RankingDatabase (base class) *)

(** [RankingDatabase.__init__]: the value kept as [_name]. *)
Definition RankingDatabase_init (name : string) : M string :=
  assert_ (truthy name) "Name must be specified.";;
  mret name.

Definition name (self : RankingDatabase) : M string :=
  emit (Call m_name (oid self));;
  mret (_name self).

Fixpoint total_genes (self : RankingDatabase) : M Z :=
  match self with
  | FeatherRankingDatabase i _ _ ct_db =>
      emit (Call m_total_genes i);;
      memoize memo_total_genes set_memo_total_genes i
        (mret (nbr_total_region_or_gene_ids ct_db))
  | MemoryDecorator i _ _db _ =>
      emit (Call m_total_genes i);;
      total_genes _db
  end.

Fixpoint genes (self : RankingDatabase) : M (list string) :=
  match self with
  | FeatherRankingDatabase i _ _ ct_db =>
      emit (Call m_genes i);;
      memoize memo_genes set_memo_genes i
        (mret (ids (all_region_or_gene_ids ct_db)))
  | MemoryDecorator i _ _db _ =>
      emit (Call m_genes i);;
      genes _db
  end.

(** Inherited by both classes. *)
Definition geneset (self : RankingDatabase) : M (gset string) :=
  emit (Call m_geneset (oid self));;
  memoize memo_geneset set_memo_geneset (oid self)
    (g ← genes self; mret (list_to_set g)).

(** A call of [ct_db.subset_to_pandas]. *)
Definition call_subset_to_pandas (ct_db : CisTargetDatabase) (r : RegionOrGeneIDs)
  : M DataFrame :=
  emit (SubsetToPandas r);;
  lift (subset_to_pandas ct_db r).

Definition load_full (self : RankingDatabase) : M DataFrame :=
  emit (Call m_load_full (oid self));;
  match self with
  | FeatherRankingDatabase _ _ _ ct_db =>
      call_subset_to_pandas ct_db (all_region_or_gene_ids ct_db)
  | MemoryDecorator _ _ _ _df =>
      mret _df
  end.

Definition load (self : RankingDatabase) (gs : GeneSignature.t) : M DataFrame :=
  emit (Call m_load (oid self));;
  match self with
  | FeatherRankingDatabase _ _ _ ct_db =>
      self_geneset ← geneset self;
      let gene_set := self_geneset ∩ list_to_set (GeneSignature.genes gs) in
      call_subset_to_pandas ct_db
        (RegionOrGeneIDs_init gene_set (rg_type (all_region_or_gene_ids ct_db)))
  | MemoryDecorator _ _ _ _df =>
      mret (loc_columns _df (isin (columns _df) (GeneSignature.genes gs)))
  end.

(** [self.__class__.__name__] *)
Definition class_name (self : RankingDatabase) : string :=
  match self with
  | FeatherRankingDatabase _ _ _ _ => "FeatherRankingDatabase"
  | MemoryDecorator _ _ _ _ => "MemoryDecorator"
  end.

(** [__str__]: the [name] property. *)
Definition __str__ (self : RankingDatabase) : M string := name self.

(** The double quote character. *)
Definition dquote : string := String (ascii_of_nat 34) EmptyString.

(** [__repr__]: the class name and the [_name] attribute between double
    quotes, as [format] puts them together. *)
Definition __repr__ (self : RankingDatabase) : string :=
  class_name self +:+ "(name=" +:+ dquote +:+ _name self +:+ dquote +:+ ")".

(** *** Constructors and the factory *)

Definition FeatherRankingDatabase_init (fname name : string) : M RankingDatabase :=
  _name ← RankingDatabase_init name;
  assert_ (isfile fname) ("Database " +:+ fname +:+ " doesn't exist.");;
  emit (InitCtDb fname);;
  ct_db ← lift (init_ct_db fname);
  new_object (λ i, FeatherRankingDatabase i _name fname ct_db).

(** The argument is [None] when no database is supplied; an instance is
    always true, as the classes define neither [__bool__] nor [__len__]. *)
Definition MemoryDecorator_init (db : option RankingDatabase) : M RankingDatabase :=
  match db with
  | None => raise (AssertionError "Database should be supplied.")
  | Some db =>
      _df ← load_full db;
      db_name ← name db;
      _name ← RankingDatabase_init db_name;
      new_object (λ i, MemoryDecorator i _name db _df)
  end.

Definition opendb (fname name : string) : M RankingDatabase :=
  assert_ (isfile fname) (fname +:+ " does not exist.");;
  assert_ (truthy name) "A database should be given a proper name.";;
  let extension := (splitext fname).2 in
  if String.eqb extension ".feather" then
    FeatherRankingDatabase_init fname name
  else
    raise (ValueError (extension +:+ " is an unknown extension.")).

End RankingDatabases.

(** ** What the methods compute, stated without the interpreter state *)

Section Specification.
Context `{Ctdb}.
Variable isfile : string → bool.

(** The store handle an instance reads, through any decorators. *)
Fixpoint store_of (d : RankingDatabase) : CisTargetDatabase :=
  match d with
  | FeatherRankingDatabase _ _ _ ct_db => ct_db
  | MemoryDecorator _ _ db _ => store_of db
  end.

Definition genes_of (d : RankingDatabase) : list string :=
  ids (all_region_or_gene_ids (store_of d)).

Definition total_genes_of (d : RankingDatabase) : Z :=
  nbr_total_region_or_gene_ids (store_of d).

Definition load_full_of (d : RankingDatabase) : result DataFrame :=
  match d with
  | FeatherRankingDatabase _ _ _ ct_db =>
      subset_to_pandas ct_db (all_region_or_gene_ids ct_db)
  | MemoryDecorator _ _ _ df => Ok df
  end.

Definition load_of (d : RankingDatabase) (gs : GeneSignature.t) : result DataFrame :=
  match d with
  | FeatherRankingDatabase _ _ _ ct_db =>
      subset_to_pandas ct_db
        (RegionOrGeneIDs_init
           (list_to_set (genes_of d) ∩ list_to_set (GeneSignature.genes gs))
           (rg_type (all_region_or_gene_ids ct_db)))
  | MemoryDecorator _ _ _ df =>
      Ok (loc_columns df (isin (columns df) (GeneSignature.genes gs)))
  end.

(** An instance exists in a world when it is the object entered under its
    identity. *)
Definition live (w : World) (d : RankingDatabase) : Prop :=
  objs w !! oid d = Some d.

(** One operation of the module, applied to existing instances. *)
Inductive step (w : World) : World → Prop :=
| step_FeatherRankingDatabase fname nm r w' :
    FeatherRankingDatabase_init isfile fname nm w = (r, w') → step w w'
| step_opendb fname nm r w' :
    opendb isfile fname nm w = (r, w') → step w w'
| step_MemoryDecorator db r w' :
    (∀ d, db = Some d → live w d) →
    MemoryDecorator_init db w = (r, w') → step w w'
| step_name d r w' : live w d → name d w = (r, w') → step w w'
| step_total_genes d r w' : live w d → total_genes d w = (r, w') → step w w'
| step_genes d r w' : live w d → genes d w = (r, w') → step w w'
| step_geneset d r w' : live w d → geneset d w = (r, w') → step w w'
| step_load_full d r w' : live w d → load_full d w = (r, w') → step w w'
| step_load d gs r w' : live w d → load d gs w = (r, w') → step w w'.

(** The worlds a program can be in: those obtained from the initial one
    by operations of the module. *)
Definition reachable (w : World) : Prop := rtc step empty_world w.

(** The invariant of reachable worlds: identities are those handed out, a
    decorator wraps an existing instance and holds its full table, and
    every cached property value is the one its instance computes. *)
Record world_ok (w : World) : Prop := {
  ok_oid : ∀ i d, objs w !! i = Some d → oid d = i ∧ (i < next_oid w)%nat;
  ok_name : ∀ i d, objs w !! i = Some d → _name d ≠ "";
  ok_wrapped : ∀ i n db df,
    objs w !! i = Some (MemoryDecorator i n db df) →
    live w db ∧ load_full_of db = Ok df;
  ok_memo_total_genes : ∀ i v,
    memo_total_genes w !! i = Some v →
    ∃ d, objs w !! i = Some d ∧ v = total_genes_of d;
  ok_memo_genes : ∀ i v,
    memo_genes w !! i = Some v →
    ∃ d, objs w !! i = Some d ∧ v = genes_of d;
  ok_memo_geneset : ∀ i v,
    memo_geneset w !! i = Some v →
    ∃ d, objs w !! i = Some d ∧ v = list_to_set (genes_of d)
}.

(** How the constructors build an instance: a file-backed one holds a
    non-empty name and the handle the store returned for its file, which
    existed; a decorator holds the name and the full table of the instance
    it wraps, which was built before it. *)
Inductive well_built : RankingDatabase → Prop :=
| well_built_feather i n f ct :
    n ≠ "" → isfile f = true → init_ct_db f = Ok ct →
    well_built (FeatherRankingDatabase i n f ct)
| well_built_decorator i db df :
    well_built db → load_full_of db = Ok df → (oid db < i)%nat →
    well_built (MemoryDecorator i (_name db) db df).

(** What an operation does to the instances: nothing, or it adds one
    under the next identity. *)
Definition adds_instance (w w' : World) : Prop :=
  objs w' = objs w
  ∨ ∃ d, objs w' = <[next_oid w := d]> (objs w) ∧ oid d = next_oid w
         ∧ match d with
           | FeatherRankingDatabase _ n f ct =>
               n ≠ "" ∧ isfile f = true ∧ init_ct_db f = Ok ct
           | MemoryDecorator _ n db df =>
               n = _name db ∧ live w db ∧ load_full_of db = Ok df
           end.

(** The calls made while going from [w] to [w']. *)
Definition new_calls (w w' : World) : list event :=
  drop (length (calls w)) (calls w').

(** A method call leaves the instances as they are and only adds calls. *)
Record same_objects (w w' : World) : Prop := {
  same_next_oid : next_oid w' = next_oid w;
  same_objs : objs w' = objs w;
  same_calls : calls w' = calls w ++ new_calls w w'
}.

(** Whether [e] is the entry of method [m] of the instance [i]. *)
Definition is_call_of (m : method) (i : nat) (e : event) : bool :=
  match e with
  | Call m' j => bool_decide (m' = m) && bool_decide (j = i)
  | _ => false
  end.

(** The calls [load_full] makes: its own entry and, for a file-backed
    instance, one query of the store for all identifiers. *)
Definition load_full_calls (d : RankingDatabase) : list event :=
  Call m_load_full (oid d) ::
  match d with
  | FeatherRankingDatabase _ _ _ ct_db => [SubsetToPandas (all_region_or_gene_ids ct_db)]
  | MemoryDecorator _ _ _ _ => []
  end.

(** The calls that read a property and load nothing. *)
Definition is_accessor (e : event) : bool :=
  match e with
  | Call (m_name | m_total_genes | m_genes | m_geneset) _ => true
  | _ => false
  end.

End Specification.

(** ** A store handle that changes with its requests *)

Section MutableHandle.
Context `{Ctdb}.

(** What a handle keeps between two requests. *)
Variable handle_state : Type.

(** [ct_db.subset_to_pandas] as a method of a mutable object: the answer
    may depend on the state the handle is in, and the request may change
    it. *)
Variable subset_to_pandas_on :
  CisTargetDatabase → RegionOrGeneIDs → handle_state → result DataFrame * handle_state.

(** [load], with the state of the handle of [self] passed along. The
    decorator does not touch a handle. *)
Definition load_on (self : RankingDatabase) (gs : GeneSignature.t)
    (h : handle_state) (w : World) : (result DataFrame * handle_state) * World :=
  match self with
  | FeatherRankingDatabase i _ _ ct_db =>
      match (emit (Call m_load i);; geneset self) w with
      | (Ok self_geneset, w1) =>
          let gene_set := self_geneset ∩ list_to_set (GeneSignature.genes gs) in
          let r := RegionOrGeneIDs_init gene_set
                     (rg_type (all_region_or_gene_ids ct_db)) in
          (subset_to_pandas_on ct_db r h, logged w1 [SubsetToPandas r])
      | (Raise e, w1) => ((Raise e, h), w1)
      end
  | MemoryDecorator i _ _ _df =>
      ((Ok (loc_columns _df (isin (columns _df) (GeneSignature.genes gs))), h),
       logged w [Call m_load i])
  end.

End MutableHandle.

(** ** A small store to run the module on *)

Module Example.

(** A feather file as the store sees it: the kind of its identifiers and
    its full table. *)
Record feather : Type := {
  fe_type : RegionsOrGenesType;
  fe_table : DataFrame
}.

Definition has_ids (r : RegionOrGeneIDs) (t : feather) : bool :=
  bool_decide (rg_type r = fe_type t)
  && forallb (λ g, bool_decide (g ∈ columns (fe_table t))) (ids r).

Definition materialise (t : feather) (r : RegionOrGeneIDs) : result DataFrame :=
  if has_ids r t then
    Ok {| df_index := df_index (fe_table t);
          df_data := filter (λ c, c.1 ∈ ids r) (df_data (fe_table t)) |}
  else Raise (ValueError "identifiers not in the database").

(** Two motifs ranking the genes A, B, C and D. *)
Definition hg_table : DataFrame :=
  {| df_index := ["motif1"; "motif2"];
     df_data := [("A", [0; 3]); ("B", [1; 2]); ("C", [2; 1]); ("D", [3; 0])] |}.

Definition disk (fname : string) : option feather :=
  if String.eqb fname "hg.genes_vs_motifs.rankings.feather"
  then Some {| fe_type := GENES; fe_table := hg_table |}
  else None.

Definition isfile (fname : string) : bool :=
  bool_decide (fname ∈ ["hg.genes_vs_motifs.rankings.feather"; "hg.rankings.db"; "README"]).

#[global] Instance ctdb : Ctdb := {|
  CisTargetDatabase := feather;
  init_ct_db fname :=
    match disk fname with
    | Some t => Ok t
    | None => Raise (ExternalError "not a feather database")
    end;
  nbr_total_region_or_gene_ids t := Z.of_nat (length (columns (fe_table t)));
  all_region_or_gene_ids t := {| ids := columns (fe_table t); rg_type := fe_type t |};
  subset_to_pandas := materialise;
  RegionOrGeneIDs_init s ty := {| ids := elements s; rg_type := ty |}
|}.

Definition hg : string := "hg.genes_vs_motifs.rankings.feather".

(** The world after [db = opendb(hg, "hg")] and [mem = MemoryDecorator(db)]. *)
Definition db_opened : result RankingDatabase * World :=
  opendb isfile hg "hg" empty_world.

Definition db : RankingDatabase :=
  FeatherRankingDatabase 0 "hg" hg {| fe_type := GENES; fe_table := hg_table |}.

Definition mem_built : result RankingDatabase * World :=
  MemoryDecorator_init (Some db) db_opened.2.

Definition mem : RankingDatabase := MemoryDecorator 1 "hg" db hg_table.

Definition signature : GeneSignature.t :=
  {| GeneSignature.genes := ["B"; "D"; "D"; "E"] |}.

End Example.

Module DotFile.

(** A directory whose only file is named ".feather". *)
Definition isfile (fname : string) : bool := String.eqb fname "db/.feather".

End DotFile.

Module CachingStore.

(** A handle over the example file that keeps the table it materialised
    first and answers every later request out of that table; a request
    for which it holds no column is an error. [None] is the state of a
    handle that has served no request. *)
Definition subset_to_pandas_on (t : Example.feather) (r : RegionOrGeneIDs)
    (cached : option DataFrame) : result DataFrame * option DataFrame :=
  match cached with
  | None =>
      match Example.materialise t r with
      | Ok df => (Ok df, Some df)
      | Raise e => (Raise e, None)
      end
  | Some c =>
      match ids r with
      | [] => (Raise (ValueError "no identifier is loaded"), cached)
      | _ :: _ =>
          if forallb (λ g, bool_decide (g ∈ columns c)) (ids r)
          then (Ok {| df_index := df_index c;
                      df_data := filter (λ col, col.1 ∈ ids r) (df_data c) |},
                cached)
          else (Raise (ValueError "no identifier is loaded"), cached)
      end
  end.


End CachingStore.

(** ** Properties *)

(** *** The Python helpers *)

Example int_ascii_examples :
  int_ascii "0" = Some 0 ∧ int_ascii " -1_000 " = Some (-1000)
  ∧ int_ascii "+007" = Some 7 ∧ int_ascii "abc" = None ∧ int_ascii "" = None
  ∧ int_ascii "1__0" = None ∧ int_ascii "12_" = None ∧ int_ascii "4.0" = None.
Proof. by vm_compute. Qed.

Example splitext_examples :
  splitext "db/hg.rankings.feather" = ("db/hg.rankings", ".feather")
  ∧ splitext "db.v2/rankings" = ("db.v2/rankings", "")
  ∧ splitext ".feather" = (".feather", "")
  ∧ splitext "db/..feather" = ("db/..feather", "")
  ∧ splitext "rankings." = ("rankings", ".")
  ∧ splitext "hg.FEATHER" = ("hg", ".FEATHER").
Proof. by vm_compute. Qed.

Lemma substring_split (n : nat) (p : string) :
  substring 0 n p +:+ substring n (String.length p - n) p = p.
Proof.
  revert n. induction p as [|a p IH]; intros [|n]; try done.
  - specialize (IH 0%nat). rewrite Nat.sub_0_r in IH.
    change (String a (substring 0 (String.length p) p) = String a p). f_equal.
    by destruct p.
  - change (String a (substring 0 n p +:+ substring n (String.length p - n) p)
            = String a p).
    f_equal. apply IH.
Qed.

(** The two parts [splitext] returns make up the path. *)
Lemma splitext_join (p : string) : (splitext p).1 +:+ (splitext p).2 = p.
Proof.
  assert (Hnil : p +:+ "" = p).
  { induction p as [|a p IH]; [done|].
    change (String a (p +:+ "") = String a p). by f_equal. }
  unfold splitext. destruct (_ >? _); [|done].
  generalize (rfind p "/" + 1). intros i.
  generalize (Z.to_nat (rfind p "." - i)). intros n. revert i.
  induction n as [|n IH]; intros i; simpl; [done|].
  destruct (negb _); [|apply IH]. simpl. apply substring_split.
Qed.

(** *** The thread count *)

Lemma pyarrow_threads_of_value (int : string → option Z) environ v :
  int "" = None →
  environ !! "PYARROW_THREADS" = Some v →
  PyArrowThreads.pyarrow_threads int environ
  = match int v with
    | Some n => Z.max n 1
    | None => 4
    end.
Proof.
  intros Hempty Hv. unfold PyArrowThreads.pyarrow_threads. rewrite Hv.
  destruct v as [|a v]; simpl.
  - by rewrite Hempty.
  - destruct (int (String a v)) as [n|]; [|done].
    destruct (Z.ltb_spec n 1); lia.
Qed.

(** C3. Whatever [int] accepts, provided it behaves as Python's on the
    three strings named: when PYARROW_THREADS is set to text that [int]
    parses, the thread count is that integer, or 1 if it is less than 1;
    when it is set to text that [int] rejects, or not set, the count is 4.
    So "0" gives 1 and "abc" gives 4. The count applied at import is the
    one resolved. *)
Theorem thread_count_resolution (int : string → option Z) :
  int "" = None → int "0" = Some 0 → int "abc" = None →
  (∀ environ,
     PyArrowThreads.pyarrow_threads int environ
     = match environ !! "PYARROW_THREADS" with
       | Some v =>
           match int v with
           | Some n => Z.max n 1
           | None => 4
           end
       | None => 4
       end)
  ∧ PyArrowThreads.pyarrow_threads int {[ "PYARROW_THREADS" := "0" ]} = 1
  ∧ PyArrowThreads.pyarrow_threads int {[ "PYARROW_THREADS" := "abc" ]} = 4
  ∧ ∀ environ,
      PyArrowThreads.set_nbr_pyarrow_threads int environ None
      = PyArrowThreads.pyarrow_threads int environ.
Proof.
  intros Hempty H0 Habc. split_and!.
  - intros environ. destruct (environ !! "PYARROW_THREADS") as [v|] eqn:Hv.
    + by apply pyarrow_threads_of_value.
    + unfold PyArrowThreads.pyarrow_threads. by rewrite Hv.
  - rewrite (pyarrow_threads_of_value int _ "0"); [by rewrite H0|done|].
    apply lookup_singleton_eq.
  - rewrite (pyarrow_threads_of_value int _ "abc"); [by rewrite Habc|done|].
    apply lookup_singleton_eq.
  - done.
Qed.

(** *** Selecting columns in memory *)

Lemma loc_columns_isin_data (l : list (string * list Z)) (values : list string) :
  (filter (λ cm, cm.2 = true) (zip l (isin l.*1 values))).*1
  = filter (λ c, c.1 ∈ values) l.
Proof.
  induction l as [|c l IH]; [done|]. simpl.
  rewrite !filter_cons. simpl. rewrite <- IH.
  destruct (decide (c.1 ∈ values)) as [Hin|Hin].
  - by rewrite bool_decide_eq_true_2.
  - by rewrite bool_decide_eq_false_2.
Qed.

Lemma filter_columns (l : list (string * list Z)) (values : list string) :
  (filter (λ c, c.1 ∈ values) l).*1 = filter (λ g, g ∈ values) l.*1.
Proof.
  induction l as [|c l IH]; [done|]. simpl.
  rewrite !filter_cons. destruct (decide (c.1 ∈ values)); simpl; by f_equal.
Qed.

Lemma list_to_set_filter_elem_of (l values : list string) :
  list_to_set (filter (λ g, g ∈ values) l)
  =@{gset string} list_to_set l ∩ list_to_set values.
Proof.
  apply set_eq. intros g.
  rewrite elem_of_intersection, !elem_of_list_to_set, list_elem_of_filter.
  tauto.
Qed.

Section Properties.
Context `{Ctdb}.
Variable isfile : string → bool.

Implicit Types (w : World) (d db : RankingDatabase) (gs : GeneSignature.t).

(** *** Running computations *)

Lemma bind_run {A B} (m : M A) (k : A → M B) w :
  (m ≫= k) w
  = match m w with
    | (Ok a, w') => k a w'
    | (Raise e, w') => (Raise e, w')
    end.
Proof. reflexivity. Qed.

Lemma emit_run e w : emit e w = (Ok (), logged w [e]).
Proof. reflexivity. Qed.

Lemma logged_logged w es es' : logged (logged w es) es' = logged w (es ++ es').
Proof. unfold logged; simpl. by rewrite <- app_assoc. Qed.

Lemma logged_nil w : logged w [] = w.
Proof. destruct w; unfold logged; simpl. by rewrite app_nil_r. Qed.

Lemma new_calls_app w w' es : calls w' = calls w ++ es → new_calls w w' = es.
Proof. intros E. unfold new_calls. by rewrite E, drop_app_length. Qed.

Lemma new_calls_logged w es : new_calls w (logged w es) = es.
Proof. by apply new_calls_app. Qed.

Lemma same_objects_refl w : same_objects w w.
Proof.
  split; try done. unfold new_calls. by rewrite drop_all, app_nil_r.
Qed.

Lemma same_objects_logged w es : same_objects w (logged w es).
Proof. split; try done. by rewrite new_calls_logged. Qed.

Lemma new_calls_trans w1 w2 w3 :
  same_objects w1 w2 → same_objects w2 w3 →
  new_calls w1 w3 = new_calls w1 w2 ++ new_calls w2 w3.
Proof.
  intros [_ _ E12] [_ _ E23]. apply new_calls_app.
  by rewrite E23, E12 at 1; rewrite <- app_assoc.
Qed.

Lemma same_objects_trans w1 w2 w3 :
  same_objects w1 w2 → same_objects w2 w3 → same_objects w1 w3.
Proof.
  intros H12 H23. split.
  - by rewrite (same_next_oid _ _ H23), (same_next_oid _ _ H12).
  - by rewrite (same_objs _ _ H23), (same_objs _ _ H12).
  - rewrite (new_calls_trans _ _ _ H12 H23), app_assoc.
    by rewrite <- (same_calls _ _ H12), <- (same_calls _ _ H23).
Qed.

Lemma live_same_objects w w' d : same_objects w w' → live w d → live w' d.
Proof. intros [_ E _]. unfold live. by rewrite E. Qed.

(** *** The invariant *)

Lemma world_ok_empty : world_ok empty_world.
Proof. split; intros *; simpl; by rewrite lookup_empty. Qed.

Lemma world_ok_logged w es : world_ok w → world_ok (logged w es).
Proof. intros [? ? ? ? ? ?]. by split. Qed.

Lemma world_ok_set_memo_total_genes w d :
  world_ok w → live w d →
  world_ok (set_memo_total_genes (<[oid d := total_genes_of d]> (memo_total_genes w)) w).
Proof.
  intros [? ? ? ? ? ?] L. split; try done. simpl. intros i v.
  rewrite lookup_insert. case_decide; [|by auto].
  intros [= <-]. subst i. by exists d.
Qed.

Lemma world_ok_set_memo_genes w d :
  world_ok w → live w d →
  world_ok (set_memo_genes (<[oid d := genes_of d]> (memo_genes w)) w).
Proof.
  intros [? ? ? ? ? ?] L. split; try done. simpl. intros i v.
  rewrite lookup_insert. case_decide; [|by auto].
  intros [= <-]. subst i. by exists d.
Qed.

Lemma world_ok_set_memo_geneset w d :
  world_ok w → live w d →
  world_ok (set_memo_geneset
              (<[oid d := list_to_set (genes_of d)]> (memo_geneset w)) w).
Proof.
  intros [? ? ? ? ? ?] L. split; try done. simpl. intros i v.
  rewrite lookup_insert. case_decide; [|by auto].
  intros [= <-]. subst i. by exists d.
Qed.

Lemma live_wrapped w i n db df :
  world_ok w → live w (MemoryDecorator i n db df) →
  live w db ∧ load_full_of db = Ok df.
Proof. intros Hok L. by apply (ok_wrapped _ Hok i n). Qed.

Lemma live_oid_lt w d : world_ok w → live w d → (oid d < next_oid w)%nat.
Proof. intros Hok L. by apply (ok_oid _ Hok _ _ L). Qed.

(** *** The properties of an instance

    In a reachable world the accessors return what the store handle
    gives, whether the value is computed or found in a cache. *)

Lemma name_run w d : name d w = (Ok (_name d), logged w [Call m_name (oid d)]).
Proof. reflexivity. Qed.

Lemma memoize_hit {V} cache store key (body : M V) w v :
  cache w !! key = Some v → memoize cache store key body w = (Ok v, w).
Proof. intros E. unfold memoize. by rewrite E. Qed.

Lemma memoize_miss {V} cache store key (body : M V) w v w' :
  cache w !! key = None → body w = (Ok v, w') →
  memoize cache store key body w = (Ok v, store (<[key := v]> (cache w')) w').
Proof. intros E Hb. unfold memoize. by rewrite E, Hb. Qed.

(** A memoized property of a file-backed instance, then the delegation of
    a decorator: both accessors follow this pattern. [memo_ok] is the
    invariant of the cache and [set_ok] its preservation on a miss. *)
Ltac accessor_run memo_ok set_ok :=
  let w := fresh "w" in let Hok := fresh "Hok" in let L := fresh "L" in
  let IH := fresh "IH" in let Hok1 := fresh "Hok1" in let Hs1 := fresh "Hs1" in
  let E := fresh "E" in let Hd := fresh "Hd" in let d' := fresh "d'" in
  let i := fresh "i" in let n := fresh "n" in let f := fresh "f" in
  let ct := fresh "ct" in let db := fresh "db" in let df := fresh "df" in
  let Ldb := fresh "Ldb" in let w' := fresh "w'" in let Hrun := fresh "Hrun" in
  let Hok' := fresh "Hok'" in let Hsame := fresh "Hsame" in let Hacc := fresh "Hacc" in
  intros d; induction d as [i n f ct | i n db IH df]; intros w Hok L; simpl;
    rewrite bind_run, emit_run;
    match goal with
    | |- context [logged w [?e]] =>
        pose proof (world_ok_logged w [e] Hok) as Hok1;
        pose proof (same_objects_logged w [e]) as Hs1
    end;
    [ match goal with
      | |- context [memoize ?cache _ _ _ ?w1] =>
          destruct (cache w1 !! i) as [v|] eqn:E;
            [ destruct (memo_ok _ Hok1 _ _ E) as (d' & Hd & ->);
              unfold live in L; simpl in L, Hd; rewrite L in Hd;
              injection Hd as <-;
              eexists; rewrite (memoize_hit _ _ _ _ _ _ E);
              split_and!; [done|done|done|]
            | eexists; erewrite memoize_miss; [|done|reflexivity];
              split_and!;
                [ done
                | by apply (set_ok w1 (FeatherRankingDatabase i n f ct))
                | split; [done|done|];
                  simpl; by erewrite (new_calls_app w) by reflexivity
                | erewrite (new_calls_app w) by reflexivity ] ]
      end
    | destruct (live_wrapped _ _ _ _ _ Hok L) as [Ldb _];
      edestruct IH as (w' & Hrun & Hok' & Hsame & Hacc); [exact Hok1|exact Ldb|];
      exists w'; split_and!;
        [ done | done | by eapply same_objects_trans
        | rewrite (new_calls_trans _ _ _ Hs1 Hsame) ] ];
    rewrite ?new_calls_logged; by repeat constructor.

Lemma total_genes_run d w :
  world_ok w → live w d →
  ∃ w', total_genes d w = (Ok (total_genes_of d), w')
        ∧ world_ok w' ∧ same_objects w w'
        ∧ Forall (λ e, is_accessor e = true) (new_calls w w').
Proof. revert d w. accessor_run ok_memo_total_genes world_ok_set_memo_total_genes. Qed.

Lemma genes_run d w :
  world_ok w → live w d →
  ∃ w', genes d w = (Ok (genes_of d), w')
        ∧ world_ok w' ∧ same_objects w w'
        ∧ Forall (λ e, is_accessor e = true) (new_calls w w').
Proof. revert d w. accessor_run ok_memo_genes world_ok_set_memo_genes. Qed.

Lemma geneset_run d w :
  world_ok w → live w d →
  ∃ w', geneset d w = (Ok (list_to_set (genes_of d)), w')
        ∧ world_ok w' ∧ same_objects w w'
        ∧ Forall (λ e, is_accessor e = true) (new_calls w w').
Proof.
  intros Hok L. unfold geneset. rewrite bind_run, emit_run.
  set (e := Call m_geneset (oid d)).
  pose proof (world_ok_logged w [e] Hok) as Hok1.
  pose proof (same_objects_logged w [e]) as Hs1.
  destruct (memo_geneset (logged w [e]) !! oid d) as [v|] eqn:E.
  - destruct (ok_memo_geneset _ Hok1 _ _ E) as (d' & Hd & ->).
    unfold live in L. simpl in Hd. rewrite L in Hd. injection Hd as <-.
    eexists. rewrite (memoize_hit _ _ _ _ _ _ E). split_and!; try done.
    rewrite new_calls_logged. by repeat constructor.
  - destruct (genes_run d (logged w [e])) as (w2 & Hrun & Hok2 & Hs2 & Hacc); [done..|].
    eexists. erewrite memoize_miss; [|done|by rewrite bind_run, Hrun].
    assert (Hs : same_objects w w2) by by eapply same_objects_trans.
    split_and!; try done.
    + apply world_ok_set_memo_geneset; [done|]. by eapply live_same_objects.
    + destruct Hs as [? ? Hc]. by split.
    + erewrite (new_calls_app w); [|simpl; apply (same_calls _ _ Hs)].
      rewrite (new_calls_trans _ _ _ Hs1 Hs2), new_calls_logged. by constructor.
Qed.

(** *** Loading *)

Lemma load_full_run d w :
  load_full d w = (load_full_of d, logged w (load_full_calls d)).
Proof.
  destruct d as [i n f ct | i n db df]; [|reflexivity].
  unfold load_full, call_subset_to_pandas, load_full_calls; simpl.
  rewrite bind_run, emit_run; simpl. rewrite bind_run, emit_run; simpl.
  rewrite logged_logged. unfold lift.
  by destruct (subset_to_pandas ct (all_region_or_gene_ids ct)).
Qed.

Lemma load_decorator_run i n db df gs w :
  load (MemoryDecorator i n db df) gs w
  = (Ok (loc_columns df (isin (columns df) (GeneSignature.genes gs))),
     logged w [Call m_load i]).
Proof. reflexivity. Qed.

Lemma load_run d gs w :
  world_ok w → live w d →
  ∃ w', load d gs w = (load_of d gs, w') ∧ world_ok w' ∧ same_objects w w'.
Proof.
  intros Hok L. destruct d as [i n f ct | i n db df].
  - unfold load. rewrite bind_run, emit_run. simpl oid.
    set (w1 := logged w [Call m_load i]).
    destruct (geneset_run (FeatherRankingDatabase i n f ct) w1)
      as (w2 & Hrun & Hok2 & Hs2 & _); [by apply world_ok_logged|done|].
    rewrite bind_run, Hrun. unfold call_subset_to_pandas.
    rewrite bind_run, emit_run. unfold lift, load_of.
    eexists. split.
    { destruct (subset_to_pandas ct _); reflexivity. }
    split; [by apply world_ok_logged|].
    eapply same_objects_trans; [apply same_objects_logged|].
    eapply same_objects_trans; [exact Hs2|apply same_objects_logged].
  - rewrite load_decorator_run. eexists. split; [done|].
    split; [by apply world_ok_logged|apply same_objects_logged].
Qed.

(** *** Construction *)

Lemma FeatherRankingDatabase_init_run fname nm w :
  FeatherRankingDatabase_init isfile fname nm w
  = if truthy nm then
      if isfile fname then
        match init_ct_db fname with
        | Ok ct =>
            new_object (λ i, FeatherRankingDatabase i nm fname ct)
              (logged w [InitCtDb fname])
        | Raise e => (Raise e, logged w [InitCtDb fname])
        end
      else (Raise (AssertionError ("Database " +:+ fname +:+ " doesn't exist.")), w)
    else (Raise (AssertionError "Name must be specified."), w).
Proof.
  unfold FeatherRankingDatabase_init, RankingDatabase_init, assert_, lift.
  rewrite !bind_run.
  by destruct (truthy nm), (isfile fname), (init_ct_db fname).
Qed.

Lemma opendb_run fname nm w :
  opendb isfile fname nm w
  = if isfile fname then
      if truthy nm then
        if String.eqb (splitext fname).2 ".feather"
        then FeatherRankingDatabase_init isfile fname nm w
        else (Raise (ValueError ((splitext fname).2 +:+ " is an unknown extension.")), w)
      else (Raise (AssertionError "A database should be given a proper name."), w)
    else (Raise (AssertionError (fname +:+ " does not exist.")), w).
Proof.
  unfold opendb, assert_. rewrite !bind_run.
  by destruct (isfile fname), (truthy nm), (String.eqb _ _).
Qed.

Lemma MemoryDecorator_init_run db w :
  MemoryDecorator_init (Some db) w
  = match load_full_of db with
    | Ok df =>
        let w1 := logged w (load_full_calls db ++ [Call m_name (oid db)]) in
        if truthy (_name db)
        then new_object (λ i, MemoryDecorator i (_name db) db df) w1
        else (Raise (AssertionError "Name must be specified."), w1)
    | Raise e => (Raise e, logged w (load_full_calls db))
    end.
Proof.
  unfold MemoryDecorator_init. rewrite bind_run, load_full_run.
  destruct (load_full_of db) as [df|e]; [|done].
  rewrite bind_run, name_run, logged_logged. simpl.
  unfold RankingDatabase_init. rewrite !bind_run.
  by destruct (truthy (_name db)).
Qed.

Lemma truthy_nonempty s : truthy s = true ↔ s ≠ "".
Proof. by destruct s. Qed.

(** A new instance is entered under an identity no instance has yet. *)
Lemma new_object_run mk w :
  world_ok w →
  (∀ i, oid (mk i) = i) →
  _name (mk (next_oid w)) ≠ "" →
  (∀ n db df, mk (next_oid w) = MemoryDecorator (next_oid w) n db df →
              live w db ∧ load_full_of db = Ok df) →
  ∃ w', new_object mk w = (Ok (mk (next_oid w)), w')
        ∧ world_ok w' ∧ live w' (mk (next_oid w))
        ∧ (∀ d, live w d → live w' d)
        ∧ calls w' = calls w.
Proof.
  intros Hok Hoid Hname Hwrap. eexists. split; [reflexivity|].
  assert (Hfree : objs w !! next_oid w = None).
  { destruct (objs w !! next_oid w) as [d|] eqn:E; [|done].
    destruct (ok_oid _ Hok _ _ E). lia. }
  assert (Hkeep : ∀ d, live w d →
            <[next_oid w := mk (next_oid w)]> (objs w) !! oid d = Some d).
  { intros d L. rewrite lookup_insert_ne; [done|].
    intros E. unfold live in L. rewrite <- E in L. congruence. }
  split_and!; try done.
  - split; simpl.
    + intros i d. rewrite lookup_insert. case_decide as E.
      * intros [= <-]. subst i. split; [done|lia].
      * intros Hd. destruct (ok_oid _ Hok _ _ Hd). split; [done|lia].
    + intros i d. rewrite lookup_insert. case_decide.
      * by intros [= <-].
      * apply (ok_name _ Hok).
    + intros i n db df. rewrite lookup_insert. case_decide as E.
      * intros [= Hmk]. subst i. destruct (Hwrap n db df Hmk) as [L ?].
        split; [|done]. by apply Hkeep.
      * intros Hd. destruct (ok_wrapped _ Hok _ _ _ _ Hd) as [L ?].
        split; [|done]. by apply Hkeep.
    + intros i v Hv. destruct (ok_memo_total_genes _ Hok _ _ Hv) as (d & Hd & ->).
      exists d. split; [|done]. destruct (ok_oid _ Hok _ _ Hd) as [<- _]. by apply Hkeep.
    + intros i v Hv. destruct (ok_memo_genes _ Hok _ _ Hv) as (d & Hd & ->).
      exists d. split; [|done]. destruct (ok_oid _ Hok _ _ Hd) as [<- _]. by apply Hkeep.
    + intros i v Hv. destruct (ok_memo_geneset _ Hok _ _ Hv) as (d & Hd & ->).
      exists d. split; [|done]. destruct (ok_oid _ Hok _ _ Hd) as [<- _]. by apply Hkeep.
  - unfold live; simpl. by rewrite Hoid, lookup_insert_eq.
Qed.

Lemma FeatherRankingDatabase_init_ok fname nm w r w' :
  world_ok w →
  FeatherRankingDatabase_init isfile fname nm w = (r, w') →
  world_ok w' ∧ (∀ d, live w d → live w' d)
  ∧ (∀ d, r = Ok d →
       live w' d ∧ nm ≠ "" ∧ isfile fname = true
       ∧ ∃ ct, d = FeatherRankingDatabase (next_oid w) nm fname ct
               ∧ init_ct_db fname = Ok ct).
Proof.
  intros Hok. rewrite FeatherRankingDatabase_init_run.
  destruct (truthy nm) eqn:Hnm; [|by intros [= <- <-]].
  destruct (isfile fname) eqn:Hf; [|by intros [= <- <-]].
  destruct (init_ct_db fname) as [ct|e] eqn:Hct.
  - destruct (new_object_run (λ i, FeatherRankingDatabase i nm fname ct)
                (logged w [InitCtDb fname]))
      as (w2 & Hrun & Hok2 & L2 & Hkeep & _);
      [by apply world_ok_logged|done|by apply truthy_nonempty|done|].
    rewrite Hrun. intros [= <- <-].
    split; [done|]. split; [intros d L; by apply Hkeep|].
    intros d [= <-]. split_and!; try done; [by apply truthy_nonempty|by exists ct].
  - intros [= <- <-]. split_and!; try done. by apply world_ok_logged.
Qed.

Lemma opendb_ok fname nm w r w' :
  world_ok w →
  opendb isfile fname nm w = (r, w') →
  world_ok w' ∧ (∀ d, live w d → live w' d)
  ∧ (∀ d, r = Ok d →
       live w' d ∧ nm ≠ "" ∧ isfile fname = true ∧ (splitext fname).2 = ".feather"
       ∧ ∃ ct, d = FeatherRankingDatabase (next_oid w) nm fname ct
               ∧ init_ct_db fname = Ok ct).
Proof.
  intros Hok. rewrite opendb_run.
  destruct (isfile fname) eqn:Hf; [|by intros [= <- <-]].
  destruct (truthy nm) eqn:Hnm; [|by intros [= <- <-]].
  destruct (String.eqb_spec (splitext fname).2 ".feather") as [He|He];
    [|by intros [= <- <-]].
  intros Hrun.
  destruct (FeatherRankingDatabase_init_ok _ _ _ _ _ Hok Hrun) as (? & ? & Hd).
  split_and!; try done. intros d Hr. destruct (Hd d Hr) as (? & ? & ? & ?). done.
Qed.

Lemma MemoryDecorator_init_ok db w r w' :
  world_ok w → live w db →
  MemoryDecorator_init (Some db) w = (r, w') →
  world_ok w' ∧ (∀ d, live w d → live w' d)
  ∧ (∀ d, r = Ok d →
       live w' d
       ∧ ∃ df, d = MemoryDecorator (next_oid w) (_name db) db df
               ∧ load_full_of db = Ok df)
  ∧ ∃ es, calls w' = calls w ++ load_full_calls db ++ es
          ∧ Forall (λ e, is_accessor e = true) es.
Proof.
  intros Hok L. rewrite MemoryDecorator_init_run.
  destruct (load_full_of db) as [df|e] eqn:Hfull.
  - assert (Hname : truthy (_name db) = true).
    { apply truthy_nonempty. apply (ok_name _ Hok _ _ L). }
    cbv zeta. rewrite Hname.
    destruct (new_object_run (λ i, MemoryDecorator i (_name db) db df)
                (logged w (load_full_calls db ++ [Call m_name (oid db)])))
      as (w2 & Hrun & Hok2 & L2 & Hkeep & Hc);
      [by apply world_ok_logged|done|by apply truthy_nonempty| |].
    { by intros n db' df' [= _ <- <-]. }
    rewrite Hrun. intros [= <- <-].
    split; [done|]. split; [intros d Ld; by apply Hkeep|]. split.
    + intros d [= <-]. split; [done|]. by exists df.
    + exists [Call m_name (oid db)]. rewrite Hc. simpl. split; [done|by constructor].
  - intros [= <- <-]. split_and!; try done; [by apply world_ok_logged|].
    exists []. by rewrite app_nil_r.
Qed.

(** Every operation keeps the invariant and the instances. *)
Lemma step_ok w w' :
  world_ok w → step isfile w w' → world_ok w' ∧ (∀ d, live w d → live w' d).
Proof.
  intros Hok Hstep.
  destruct Hstep as [fname nm r w' Hrun | fname nm r w' Hrun | db r w' Hdb Hrun
    | d r w' L Hrun | d r w' L Hrun | d r w' L Hrun | d r w' L Hrun
    | d r w' L Hrun | d gs r w' L Hrun].
  - by destruct (FeatherRankingDatabase_init_ok _ _ _ _ _ Hok Hrun) as (? & ? & _).
  - by destruct (opendb_ok _ _ _ _ _ Hok Hrun) as (? & ? & _).
  - destruct db as [db|].
    + by destruct (MemoryDecorator_init_ok _ _ _ _ Hok (Hdb _ eq_refl) Hrun) as (? & ? & _).
    + by injection Hrun as <- <-.
  - rewrite name_run in Hrun. injection Hrun as <- <-.
    split; [by apply world_ok_logged|done].
  - destruct (total_genes_run d w Hok L) as (w2 & Hrun2 & ? & ? & _).
    rewrite Hrun2 in Hrun. injection Hrun as <- <-.
    split; [done|]. intros ?. by apply live_same_objects.
  - destruct (genes_run d w Hok L) as (w2 & Hrun2 & ? & ? & _).
    rewrite Hrun2 in Hrun. injection Hrun as <- <-.
    split; [done|]. intros ?. by apply live_same_objects.
  - destruct (geneset_run d w Hok L) as (w2 & Hrun2 & ? & ? & _).
    rewrite Hrun2 in Hrun. injection Hrun as <- <-.
    split; [done|]. intros ?. by apply live_same_objects.
  - rewrite load_full_run in Hrun. injection Hrun as <- <-.
    split; [by apply world_ok_logged|done].
  - destruct (load_run d gs w Hok L) as (w2 & Hrun2 & ? & ?).
    rewrite Hrun2 in Hrun. injection Hrun as <- <-.
    split; [done|]. intros ?. by apply live_same_objects.
Qed.

Lemma steps_ok w w' :
  world_ok w → rtc (step isfile) w w' → world_ok w' ∧ (∀ d, live w d → live w' d).
Proof.
  intros Hok Hsteps. induction Hsteps as [w | w w1 w2 Hstep _ IH]; [done|].
  destruct (step_ok _ _ Hok Hstep) as [Hok1 Hl1].
  destruct (IH Hok1) as [Hok2 Hl2]. split; [done|]. intros d L. by apply Hl2, Hl1.
Qed.

Lemma reachable_ok w : reachable isfile w → world_ok w.
Proof. intros Hr. by apply (steps_ok empty_world w world_ok_empty). Qed.

(** *** Errors at construction

    The module signals a violated argument with a failed [assert], whose
    message tells which: "Name must be specified." for an empty name
    (InvalidArgument), "... doesn't exist." or "... does not exist." for
    a path that is not a file (NotFound). An unknown extension is a
    [ValueError] (UnsupportedFormat). *)

(** C4. For an existing file whose extension is not ".feather" and a
    non-empty name, [opendb] raises the [ValueError] whose message starts
    with the extension found, and the world is left as it was: no instance
    is created and the store is not opened. *)
Theorem opendb_unsupported_format fname nm w :
  isfile fname = true →
  nm ≠ "" →
  (splitext fname).2 ≠ ".feather" →
  opendb isfile fname nm w
  = (Raise (ValueError ((splitext fname).2 +:+ " is an unknown extension.")), w).
Proof.
  intros Hf Hnm Hext. rewrite opendb_run, Hf.
  apply truthy_nonempty in Hnm. rewrite Hnm.
  by destruct (String.eqb_spec (splitext fname).2 ".feather").
Qed.

(** C5. Constructing a file-backed database with an empty name fails with
    the empty-name assertion; with a non-empty name and a path that is not
    a file it fails with the missing-file assertion. Either way the
    failure is the result of the constructor itself and the world is
    unchanged; and a constructor that returns an instance was given a
    non-empty name and an existing file, so nothing is left to fail on
    these grounds in a later [load]. *)
Theorem FeatherRankingDatabase_init_errors fname nm w :
  (nm = "" →
     FeatherRankingDatabase_init isfile fname nm w
     = (Raise (AssertionError "Name must be specified."), w))
  ∧ (nm ≠ "" → isfile fname = false →
     FeatherRankingDatabase_init isfile fname nm w
     = (Raise (AssertionError ("Database " +:+ fname +:+ " doesn't exist.")), w))
  ∧ (isfile fname = false →
     ∃ msg, FeatherRankingDatabase_init isfile fname nm w
            = (Raise (AssertionError msg), w))
  ∧ (∀ d w', FeatherRankingDatabase_init isfile fname nm w = (Ok d, w') →
             nm ≠ "" ∧ isfile fname = true).
Proof.
  rewrite FeatherRankingDatabase_init_run. split_and!.
  - by intros ->.
  - intros Hnm ->. apply truthy_nonempty in Hnm. by rewrite Hnm.
  - intros ->. destruct (truthy nm); by eexists.
  - intros d w'. destruct (truthy nm) eqn:Hnm; [|done].
    destruct (isfile fname); [|done]. intros _.
    split; [by apply truthy_nonempty|done].
Qed.

(** C9. With an empty name and a path that is not a file, the constructor
    of the file-backed database reports the name (it is checked first)
    while [opendb] reports the file (it checks the file first). *)
Theorem construction_checks_in_opposite_orders fname w :
  isfile fname = false →
  FeatherRankingDatabase_init isfile fname "" w
  = (Raise (AssertionError "Name must be specified."), w)
  ∧ opendb isfile fname "" w
    = (Raise (AssertionError (fname +:+ " does not exist.")), w).
Proof.
  intros Hf. by rewrite FeatherRankingDatabase_init_run, opendb_run, Hf.
Qed.

(** *** What a caller can observe of an instance *)

(** In any reachable world the properties and the full table of an
    existing instance are functions of the instance alone. *)
Lemma observables w d :
  world_ok w → live w d →
  (name d w).1 = Ok (_name d)
  ∧ (total_genes d w).1 = Ok (total_genes_of d)
  ∧ (genes d w).1 = Ok (genes_of d)
  ∧ (geneset d w).1 = Ok (list_to_set (genes_of d))
  ∧ (load_full d w).1 = load_full_of d.
Proof.
  intros Hok L.
  destruct (total_genes_run d w Hok L) as (? & -> & _).
  destruct (genes_run d w Hok L) as (? & -> & _).
  destruct (geneset_run d w Hok L) as (? & -> & _).
  by rewrite load_full_run.
Qed.

(** C2. Let [M] be a decorator wrapping the file-backed database [D], in
    any reachable world. [D.load_full()] queries the store anew and
    [M.load_full()] makes no call but its own, and both return the same
    table: the same columns with the same ranks. *)
Theorem load_full_decorator_agrees w i n j n' f ct df :
  let D := FeatherRankingDatabase j n' f ct in
  let Mem := MemoryDecorator i n D df in
  reachable isfile w → live w Mem →
  ∃ w1 w2,
    load_full D w = (Ok df, w1)
    ∧ load_full Mem w1 = (Ok df, w2)
    ∧ new_calls w w1 = [Call m_load_full j; SubsetToPandas (all_region_or_gene_ids ct)]
    ∧ new_calls w1 w2 = [Call m_load_full i].
Proof.
  intros D Mem Hr L. apply reachable_ok in Hr.
  destruct (live_wrapped _ _ _ _ _ Hr L) as [_ Hfull].
  exists (logged w (load_full_calls D)),
         (logged (logged w (load_full_calls D)) [Call m_load_full i]).
  by rewrite !load_full_run, Hfull, !new_calls_logged.
Qed.

(** [load_on] is [load] when the handle answers without regard to its
    state. *)
Lemma load_on_stateless {S : Type}
    (subset_on : CisTargetDatabase → RegionOrGeneIDs → S → result DataFrame * S)
    d gs h w :
  (∀ ct r h', subset_on ct r h' = (subset_to_pandas ct r, h')) →
  load_on S subset_on d gs h w = (((load d gs w).1, h), (load d gs w).2).
Proof.
  intros Hpure. destruct d as [i n f ct | i n db df]; [|done].
  unfold load_on, load. rewrite !bind_run, !emit_run. simpl oid.
  rewrite bind_run.
  destruct (geneset (FeatherRankingDatabase i n f ct) (logged w [Call m_load i]))
    as [[g|e] w1]; [|done].
  unfold call_subset_to_pandas. by rewrite bind_run, emit_run, Hpure.
Qed.



(** C10. Building a decorator over an existing database [db] enters
    [db.load_full] exactly once. From then on, in whatever world,
    [load_full] and [load] of the decorator make no call but their own
    entry (in particular none into [db] or the store) and read the table
    that [db.load_full] returned, [load_full] returning that very table
    every time. The decorator has an identity of its own, and its
    [total_genes] and [genes] only read properties. *)
Theorem decorator_loads_once w db Mem w1 :
  reachable isfile w → live w db →
  MemoryDecorator_init (Some db) w = (Ok Mem, w1) →
  length (filter (λ e, is_call_of m_load_full (oid db) e = true) (new_calls w w1)) = 1%nat
  ∧ oid Mem ≠ oid db
  ∧ (∃ df,
       (load_full db w).1 = Ok df
       ∧ (∀ w2, load_full Mem w2 = (Ok df, logged w2 [Call m_load_full (oid Mem)]))
       ∧ (∀ gs w2,
            load Mem gs w2
            = (Ok (loc_columns df (isin (columns df) (GeneSignature.genes gs))),
               logged w2 [Call m_load (oid Mem)])))
  ∧ (∀ w2, reachable isfile w2 → live w2 Mem →
       Forall (λ e, is_accessor e = true) (new_calls w2 (total_genes Mem w2).2)
       ∧ Forall (λ e, is_accessor e = true) (new_calls w2 (genes Mem w2).2)).
Proof.
  intros Hr L Hrun. apply reachable_ok in Hr.
  destruct (MemoryDecorator_init_ok _ _ _ _ Hr L Hrun)
    as (Hok1 & _ & Hd & es & Hcalls & Hacc).
  destruct (Hd Mem eq_refl) as (L1 & df & -> & Hfull).
  split_and!.
  - rewrite (new_calls_app _ _ _ Hcalls), filter_app, length_app.
    assert (filter (λ e, is_call_of m_load_full (oid db) e = true) es = []) as ->.
    { clear -Hacc. induction Hacc as [|e es He _ IH]; [done|].
      rewrite filter_cons_False; [done|]. by destruct e as [[] ?| |]. }
    unfold load_full_calls. rewrite filter_cons_True.
    2:{ simpl. by rewrite !bool_decide_eq_true_2. }
    by destruct db.
  - simpl. pose proof (live_oid_lt _ _ Hr L). lia.
  - exists df. by rewrite load_full_run.
  - intros w2 Hr2 L2. apply reachable_ok in Hr2.
    destruct (total_genes_run _ w2 Hr2 L2) as (? & -> & _ & _ & ?).
    by destruct (genes_run _ w2 Hr2 L2) as (? & -> & _ & _ & ?).
Qed.

(** *** Properties that rest on the contract of the store *)

Section Contract.
Context {contract : CtdbContract}.

(** What the store returns for the query that [load] makes. *)
Lemma feather_load_of i n f ct gs :
  let D := FeatherRankingDatabase i n f ct in
  ∃ df full,
    load_of D gs = Ok df
    ∧ load_full_of D = Ok full
    ∧ list_to_set (columns df)
      =@{gset string} list_to_set (genes_of D) ∩ list_to_set (GeneSignature.genes gs)
    ∧ list_to_set (columns full) =@{gset string} list_to_set (genes_of D)
    ∧ df_index df = df_index full.
Proof using contract.
  intros D. unfold load_of, load_full_of, genes_of; simpl.
  set (all := all_region_or_gene_ids ct).
  set (s := list_to_set (ids all) ∩ list_to_set (GeneSignature.genes gs)).
  destruct (subset_to_pandas_columns ct (RegionOrGeneIDs_init s (rg_type all)))
    as (df & Hdf & Hcols).
  { apply RegionOrGeneIDs_init_type. }
  { intros g Hg.
    assert (g ∈ s) as Hs.
    { rewrite <- (RegionOrGeneIDs_init_ids s (rg_type all)). by apply elem_of_list_to_set. }
    apply elem_of_intersection in Hs as [Hs _]. by apply elem_of_list_to_set in Hs. }
  destruct (subset_to_pandas_columns ct all) as (full & Hfull & Hcolsfull); [done..|].
  exists df, full. split_and!; try done.
  - by rewrite Hcols, RegionOrGeneIDs_init_ids.
  - by apply (subset_to_pandas_rows ct _ _ _ _ Hdf Hfull).
Qed.

(** The table a decorator holds has the genes of the store as columns,
    however many decorators lie in between. *)
Lemma cached_columns w d df :
  world_ok w → live w d → load_full_of d = Ok df →
  list_to_set (columns df) =@{gset string} list_to_set (genes_of d).
Proof using contract.
  intros Hok. revert df. induction d as [i n f ct | i n db IH df0]; intros df L Hfull.
  - destruct (feather_load_of i n f ct {| GeneSignature.genes := [] |})
      as (_ & full & _ & Hfull' & _ & Hcols & _).
    rewrite Hfull in Hfull'. by injection Hfull' as <-.
  - injection Hfull as <-. destruct (live_wrapped _ _ _ _ _ Hok L) as [Ldb Hdb].
    by apply IH.
Qed.

End Contract.

(** What [load] of a file-backed instance asks of the store. *)
Lemma load_feather_run i n f ct gs w :
  let D := FeatherRankingDatabase i n f ct in
  let r := RegionOrGeneIDs_init
             (list_to_set (genes_of D) ∩ list_to_set (GeneSignature.genes gs))
             (rg_type (all_region_or_gene_ids ct)) in
  world_ok w → live w D →
  ∃ w1, load D gs w = (subset_to_pandas ct r, w1)
        ∧ world_ok w1 ∧ same_objects w w1
        ∧ last (new_calls w w1) = Some (SubsetToPandas r).
Proof.
  intros D r Hok L. unfold D at 1, load. rewrite bind_run, emit_run. simpl oid.
  fold D. set (w0 := logged w [Call m_load i]).
  destruct (geneset_run D w0) as (w2 & Hrun & Hok2 & Hs2 & _);
    [by apply world_ok_logged|done|].
  rewrite bind_run, Hrun. unfold call_subset_to_pandas.
  rewrite bind_run, emit_run. unfold lift. fold r.
  assert (Hs0 : same_objects w w2).
  { exact (same_objects_trans w w0 w2 (same_objects_logged w _) Hs2). }
  pose proof (same_objects_logged w2 [SubsetToPandas r]) as Hs3.
  exists (logged w2 [SubsetToPandas r]). split_and!.
  - done.
  - by apply world_ok_logged.
  - exact (same_objects_trans _ _ _ Hs0 Hs3).
  - rewrite (new_calls_trans _ _ _ Hs0 Hs3), new_calls_logged. apply last_snoc.
Qed.

(** C1. For an existing file-backed database [D] and any signature,
    [D.load] asks the store for the intersection of [D.geneset] with the
    genes of the signature, as identifiers of the store's type, and
    returns the store's answer; a signature with the same set of genes,
    whatever their order or repetition, gives the same outcome. Where the
    store keeps its contract, the answer is a table whose set of columns
    is that intersection, so genes the store does not know are left out
    without an error, and whose rows are those of the full table. *)
Theorem load_columns_are_the_intersection w i n f ct gs :
  let D := FeatherRankingDatabase i n f ct in
  reachable isfile w → live w D →
  ∃ g r w1,
    (geneset D w).1 = Ok g
    ∧ r = RegionOrGeneIDs_init (g ∩ list_to_set (GeneSignature.genes gs))
            (rg_type (all_region_or_gene_ids ct))
    ∧ load D gs w = (subset_to_pandas ct r, w1)
    ∧ last (new_calls w w1) = Some (SubsetToPandas r)
    ∧ (∀ gs', list_to_set (GeneSignature.genes gs')
              =@{gset string} list_to_set (GeneSignature.genes gs) →
              load D gs' w = load D gs w)
    ∧ (CtdbContract →
       ∃ df full,
         load D gs w = (Ok df, w1)
         ∧ list_to_set (columns df) = g ∩ list_to_set (GeneSignature.genes gs)
         ∧ (load_full D w1).1 = Ok full
         ∧ df_index df = df_index full).
Proof.
  intros D Hr L. apply reachable_ok in Hr.
  destruct (load_feather_run i n f ct gs w Hr L) as (w1 & Hrun & Hok1 & Hs1 & Hlast).
  destruct (observables w D Hr L) as (_ & _ & _ & Hg & _). subst D.
  eexists _, _, w1. split_and!; try done.
  - intros gs' Hgs'. unfold load. by rewrite Hgs'.
  - intros contract.
    destruct (feather_load_of i n f ct gs) as (df & full & Hdf & Hfull & Hcols & _ & Hrows).
    exists df, full. rewrite Hrun, load_full_run. split_and!; try done.
    by rewrite <- Hdf.
Qed.

(** C6. For an existing database of either class, in whatever reachable
    worlds the two are read, [total_genes] is the total count of the
    store handle the instance rests on and [genes] is the identifier list
    of the same handle. Where the store keeps its contract, the first is
    the length of the second. *)
Theorem total_genes_is_length_of_genes w w' d :
  reachable isfile w → live w d →
  reachable isfile w' → live w' d →
  ∃ n g,
    (total_genes d w).1 = Ok n
    ∧ (genes d w').1 = Ok g
    ∧ n = nbr_total_region_or_gene_ids (store_of d)
    ∧ g = ids (all_region_or_gene_ids (store_of d))
    ∧ (CtdbContract → n = Z.of_nat (length g)).
Proof.
  intros Hr L Hr' L'. apply reachable_ok in Hr, Hr'.
  destruct (observables w d Hr L) as (_ & -> & _).
  destruct (observables w' d Hr' L') as (_ & _ & -> & _).
  eexists _, _. split_and!; try done. intros contract. apply nbr_total_is_count.
Qed.

(** C7. [load] of a decorator returns the cached table restricted to the
    columns whose gene occurs in the signature: the rows and the ranks of
    the columns kept are those of the cached table, the columns come in
    the order of the cached table, and their set is the intersection of
    the cached columns with the genes of the signature. Where the store
    keeps its contract, this is for an existing decorator the
    intersection of its [geneset] with the genes of the signature, as for
    a file-backed database. *)
Theorem decorator_load_selects_columns i n db df gs :
  let Mem := MemoryDecorator i n db df in
  (∀ w, ∃ df',
     load Mem gs w = (Ok df', logged w [Call m_load i])
     ∧ df_index df' = df_index df
     ∧ df_data df' = filter (λ c, c.1 ∈ GeneSignature.genes gs) (df_data df)
     ∧ columns df' = filter (λ g, g ∈ GeneSignature.genes gs) (columns df)
     ∧ columns df' `sublist_of` columns df
     ∧ list_to_set (columns df')
       =@{gset string} list_to_set (columns df) ∩ list_to_set (GeneSignature.genes gs))
  ∧ (CtdbContract →
     ∀ w, reachable isfile w → live w Mem →
     ∃ df' g,
       (load Mem gs w).1 = Ok df'
       ∧ (geneset Mem w).1 = Ok g
       ∧ list_to_set (columns df') = g ∩ list_to_set (GeneSignature.genes gs)).
Proof.
  intros Mem.
  assert (Hdata : df_data (loc_columns df (isin (columns df) (GeneSignature.genes gs)))
                  = filter (λ c, c.1 ∈ GeneSignature.genes gs) (df_data df)).
  { apply loc_columns_isin_data. }
  assert (Hcols : columns (loc_columns df (isin (columns df) (GeneSignature.genes gs)))
                  = filter (λ g, g ∈ GeneSignature.genes gs) (columns df)).
  { unfold columns at 1. rewrite Hdata. apply filter_columns. }
  split.
  - intros w. eexists. split; [apply load_decorator_run|].
    split_and!; try done.
    + rewrite Hcols. apply sublist_filter.
    + by rewrite Hcols, list_to_set_filter_elem_of.
  - intros contract w Hr L. apply reachable_ok in Hr.
    eexists _, _. split; [by unfold Mem; rewrite load_decorator_run|].
    destruct (observables w Mem Hr L) as (_ & _ & _ & -> & _). split; [done|].
    rewrite Hcols, list_to_set_filter_elem_of. f_equal.
    by apply (cached_columns w Mem).
Qed.

End Properties.

(** ** Further properties *)

(** *** The thread count *)

Lemma pyarrow_threads_ge_1 (int : string → option Z) environ :
  1 ≤ PyArrowThreads.pyarrow_threads int environ.
Proof.
  unfold PyArrowThreads.pyarrow_threads.
  destruct (environ !! "PYARROW_THREADS") as [v|]; [|done].
  destruct (truthy v); [|done].
  destruct (int v) as [n|]; [|done].
  destruct (Z.ltb_spec n 1); lia.
Qed.

(** X1. Whatever the environment holds and whatever [int] makes of it, the
    resolved thread count is at least 1; and it differs from the default 4
    only when the variable holds text that [int] parses. *)
Theorem thread_count_at_least_one (int : string → option Z) environ :
  1 ≤ PyArrowThreads.pyarrow_threads int environ
  ∧ (PyArrowThreads.pyarrow_threads int environ ≠ 4 →
     ∃ v n, environ !! "PYARROW_THREADS" = Some v ∧ int v = Some n
            ∧ PyArrowThreads.pyarrow_threads int environ = Z.max n 1).
Proof.
  unfold PyArrowThreads.pyarrow_threads.
  destruct (environ !! "PYARROW_THREADS") as [v|]; [|done].
  destruct (truthy v); [|done].
  destruct (int v) as [n|] eqn:Hn; [|done].
  destruct (Z.ltb_spec n 1); (split; [lia|]); intros _; exists v, n; split_and!; try done; lia.
Qed.

(** X2. The count handed to [pa.set_cpu_count] is below 1 exactly when
    the caller passes a negative count: an explicit count is not clamped,
    and 0 or no count falls back on the resolved one. *)
Theorem applied_count_below_one (int : string → option Z) environ nbr_threads :
  PyArrowThreads.set_nbr_pyarrow_threads int environ nbr_threads < 1
  ↔ ∃ n, nbr_threads = Some n ∧ n < 0.
Proof.
  pose proof (pyarrow_threads_ge_1 int environ) as Hge.
  unfold PyArrowThreads.set_nbr_pyarrow_threads. destruct nbr_threads as [n|].
  - destruct (Z.eqb_spec n 0) as [->|Hn].
    + split; [lia|]. intros (n & [= <-] & ?). lia.
    + split; [intros ?; exists n; split; [done|lia]|]. intros (n' & [= <-] & ?). lia.
  - split; [lia|]. by intros (n & ? & _).
Qed.

(** *** Strings and paths *)

Lemma append_cons a s t : String a s +:+ t = String a (s +:+ t).
Proof. reflexivity. Qed.

Lemma length_append s t : String.length (s +:+ t) = (String.length s + String.length t)%nat.
Proof. induction s as [|a s IH]; [done|]. rewrite append_cons. simpl. by rewrite IH. Qed.

Lemma append_assoc s t u : (s +:+ t) +:+ u = s +:+ (t +:+ u).
Proof. induction s as [|a s IH]; [done|]. rewrite !append_cons. by f_equal. Qed.


Lemma rfind_from_append c s t i found :
  rfind_from c (s +:+ t) i found = rfind_from c t (i + Z.of_nat (String.length s)) (rfind_from c s i found).
Proof.
  revert i found. induction s as [|a s IH]; intros i found.
  - simpl. f_equal. lia.
  - rewrite append_cons. simpl rfind_from. rewrite IH. f_equal.
    simpl String.length. rewrite Nat2Z.inj_succ. lia.
Qed.

Lemma rfind_from_absent c s i found :
  c ∉ list_ascii_of_string s → rfind_from c s i found = found.
Proof.
  revert i found. induction s as [|a s IH]; intros i found Hc; [done|].
  simpl in *. apply not_elem_of_cons in Hc as [Hne Hc].
  rewrite IH by done. destruct (Ascii.eqb_spec a c); congruence.
Qed.

Lemma rfind_from_range c s i found :
  rfind_from c s i found = found
  ∨ i ≤ rfind_from c s i found < i + Z.of_nat (String.length s).
Proof.
  revert i found. induction s as [|a s IH]; intros i found; [by left|].
  simpl rfind_from. simpl String.length. rewrite Nat2Z.inj_succ.
  destruct (IH (i + 1) (if Ascii.eqb a c then i else found)) as [-> | ?]; [|right; lia].
  destruct (Ascii.eqb a c); [right; lia|by left].
Qed.

Lemma substring_prefix s t : substring 0 (String.length s) (s +:+ t) = s.
Proof.
  induction s as [|a s IH]; [by destruct t|]. rewrite append_cons. simpl. by rewrite IH.
Qed.

Lemma substring_full t : substring 0 (String.length t) t = t.
Proof. induction t as [|b t IH]; [done|]. simpl. by rewrite IH. Qed.

Lemma substring_suffix s t :
  substring (String.length s) (String.length t) (s +:+ t) = t.
Proof.
  induction s as [|a s IH]; [|by rewrite append_cons].
  apply substring_full.
Qed.

Lemma substring_at s a t : substring (String.length s) 1 (s +:+ String a t) = String a "".
Proof. induction s as [|b s IH]; [by destruct t|done]. Qed.

Lemma splitext_scan_finds p dot j n fi :
  0 ≤ fi → fi ≤ j → j < dot → dot = fi + Z.of_nat n →
  String.eqb (substring (Z.to_nat j) 1 p) "." = false →
  splitext_scan p fi dot n = Some (slice_to p dot, slice_from p dot).
Proof.
  revert fi. induction n as [|n IH]; intros fi H0 Hj Hdot Hn Hchar; [lia|].
  simpl. destruct (String.eqb (substring (Z.to_nat fi) 1 p) ".") eqn:E; [|done].
  simpl. apply IH; try lia; [|done].
  destruct (decide (fi = j)) as [->|]; [congruence|lia].
Qed.

(** A name ending in a proper character, a dot and an extension. *)
Lemma splitext_extension stem a ext :
  a ≠ "/"%char → a ≠ "."%char →
  "."%char ∉ list_ascii_of_string ext → "/"%char ∉ list_ascii_of_string ext →
  splitext (stem +:+ String a (String "." ext)) = (stem +:+ String a "", String "." ext).
Proof.
  intros Ha1 Ha2 Hdot Hsep.
  set (p := stem +:+ String a (String "." ext)).
  assert (Hd : rfind p "." = Z.of_nat (String.length stem) + 1).
  { unfold rfind, p. rewrite rfind_from_append. simpl.
    destruct (Ascii.eqb_spec a "."); [done|]. by rewrite rfind_from_absent. }
  assert (Hs : rfind p "/" = rfind stem "/").
  { unfold rfind, p. rewrite rfind_from_append. simpl.
    destruct (Ascii.eqb_spec a "/"); [done|]. by rewrite rfind_from_absent. }
  assert (Hr : -1 ≤ rfind stem "/" < Z.of_nat (String.length stem)).
  { unfold rfind. destruct (rfind_from_range "/" stem 0 (-1)) as [-> | ?]; lia. }
  unfold splitext. rewrite Hd, Hs.
  destruct (Z.gtb_spec (Z.of_nat (String.length stem) + 1) (rfind stem "/")); [|lia].
  rewrite (splitext_scan_finds p _ (Z.of_nat (String.length stem))); try lia.
  - unfold slice_to, slice_from. f_equal.
    + replace (Z.to_nat (Z.of_nat (String.length stem) + 1)) with (String.length (stem +:+ String a "")).
      2:{ rewrite length_append. simpl. lia. }
      unfold p. replace (String a (String "." ext)) with (String a "" +:+ String "." ext) by done.
      rewrite <- append_assoc. apply substring_prefix.
    + replace (Z.to_nat (Z.of_nat (String.length stem) + 1)) with (String.length (stem +:+ String a "")).
      2:{ rewrite length_append. simpl. lia. }
      unfold p. replace (String a (String "." ext)) with (String a "" +:+ String "." ext) by done.
      rewrite <- append_assoc. rewrite (length_append (_ +:+ _)).
      replace (_ + _ - _)%nat with (String.length (String "." ext)) by lia.
      apply substring_suffix.
  - rewrite Nat2Z.id. unfold p. rewrite substring_at. simpl.
    destruct (Ascii.eqb_spec a "."); [done|]. done.
Qed.

Lemma splitext_dotfile dir ext :
  dir = "" ∨ (∃ dir', dir = dir' +:+ "/") →
  "."%char ∉ list_ascii_of_string ext → "/"%char ∉ list_ascii_of_string ext →
  splitext (dir +:+ String "." ext) = (dir +:+ String "." ext, "").
Proof.
  intros Hdir Hdot Hsep.
  set (p := dir +:+ String "." ext).
  assert (Hd : rfind p "." = Z.of_nat (String.length dir)).
  { unfold rfind, p. rewrite rfind_from_append. simpl. by rewrite rfind_from_absent. }
  assert (Hs : rfind p "/" = Z.of_nat (String.length dir) - 1).
  { unfold rfind, p. rewrite rfind_from_append. simpl. rewrite rfind_from_absent by done.
    destruct Hdir as [-> | [dir' ->]]; [done|].
    rewrite rfind_from_append, length_append. simpl. lia. }
  unfold splitext. rewrite Hd, Hs.
  destruct (Z.gtb_spec (Z.of_nat (String.length dir)) (Z.of_nat (String.length dir) - 1)); [|lia].
  replace (Z.to_nat _) with 0%nat by lia. done.
Qed.

Lemma append_nil_l t : "" +:+ t = t.
Proof. reflexivity. Qed.

Lemma append_inj_l s t1 t2 : s +:+ t1 = s +:+ t2 → t1 = t2.
Proof. induction s as [|a s IH]; [done|]. rewrite !append_cons. intros [= ?]. auto. Qed.

Lemma append_inj_r s1 s2 t : s1 +:+ t = s2 +:+ t → s1 = s2.
Proof.
  revert s2. induction s1 as [|a s1 IH]; intros [|b s2]; rewrite ?append_cons, ?append_nil_l.
  - done.
  - intros E. apply (f_equal String.length) in E. simpl in E. rewrite length_append in E. lia.
  - intros E. apply (f_equal String.length) in E. simpl in E. rewrite length_append in E. lia.
  - intros [= -> E]. f_equal. by apply IH.
Qed.

(** *** Filtering lists *)

Lemma filter_all {A} (P : A → Prop) `{∀ x, Decision (P x)} (l : list A) :
  Forall P l → filter P l = l.
Proof.
  induction 1 as [|x l Hx _ IH]; [done|]. by rewrite filter_cons_True, IH.
Qed.

Lemma filter_none {A} (P : A → Prop) `{∀ x, Decision (P x)} (l : list A) :
  Forall (λ x, ¬ P x) l → filter P l = [].
Proof.
  induction 1 as [|x l Hx _ IH]; [done|]. by rewrite filter_cons_False.
Qed.

Lemma filter_agree {A} (P Q : A → Prop) `{∀ x, Decision (P x)} `{∀ x, Decision (Q x)}
    (l : list A) :
  Forall (λ x, P x ↔ Q x) l → filter P l = filter Q l.
Proof.
  induction 1 as [|x l Hx _ IH]; [done|].
  rewrite !filter_cons, IH. destruct (decide (P x)), (decide (Q x)); tauto.
Qed.

Section FurtherProperties.
Context `{Ctdb}.
Variable isfile : string → bool.

Implicit Types (w : World) (d db : RankingDatabase) (gs : GeneSignature.t).

(** *** Construction *)

Lemma FeatherRankingDatabase_init_Ok fname nm w d w' :
  FeatherRankingDatabase_init isfile fname nm w = (Ok d, w') ↔
  nm ≠ "" ∧ isfile fname = true
  ∧ ∃ ct, init_ct_db fname = Ok ct
          ∧ d = FeatherRankingDatabase (next_oid w) nm fname ct
          ∧ w' = (new_object (λ i, FeatherRankingDatabase i nm fname ct)
                    (logged w [InitCtDb fname])).2.
Proof.
  rewrite FeatherRankingDatabase_init_run, <- truthy_nonempty.
  destruct (truthy nm); [|by split; [|intros (? & _)]].
  destruct (isfile fname); [|by split; [|intros (_ & ? & _)]].
  destruct (init_ct_db fname) as [ct|e].
  - split.
    + intros [= <- <-]. split_and!; try done. by exists ct.
    + by intros (_ & _ & ct' & [= <-] & -> & ->).
  - split; [done|]. by intros (_ & _ & ct' & ? & _).
Qed.

Lemma FeatherRankingDatabase_init_Raise fname nm w e w' :
  FeatherRankingDatabase_init isfile fname nm w = (Raise e, w') →
  ∃ es, w' = logged w es.
Proof.
  rewrite FeatherRankingDatabase_init_run.
  destruct (truthy nm); [|intros [= _ <-]; exists []; by rewrite logged_nil].
  destruct (isfile fname); [|intros [= _ <-]; exists []; by rewrite logged_nil].
  destruct (init_ct_db fname); [done|]. intros [= _ <-]. by eexists.
Qed.

(** X3. [opendb] returns exactly when the path is a file, the name is
    not empty, the extension is ".feather" and the store opens the file.
    What it returns is a new file-backed instance that carries the name
    given and the handle of the store; the store was opened once. *)
Theorem opendb_returns fname nm w :
  (∀ d w', opendb isfile fname nm w = (Ok d, w') →
     isfile fname = true ∧ nm ≠ "" ∧ (splitext fname).2 = ".feather"
     ∧ (∃ ct, init_ct_db fname = Ok ct
              ∧ d = FeatherRankingDatabase (next_oid w) nm fname ct)
     ∧ live w' d
     ∧ new_calls w w' = [InitCtDb fname]
     ∧ ∀ w2, (name d w2).1 = Ok nm)
  ∧ (isfile fname = true → nm ≠ "" → (splitext fname).2 = ".feather" →
     (∃ ct, init_ct_db fname = Ok ct) →
     ∃ d w', opendb isfile fname nm w = (Ok d, w')).
Proof.
  rewrite opendb_run. split.
  - intros d w'. destruct (isfile fname) eqn:Hf; [|done].
    destruct (truthy nm) eqn:Hnm; [|done].
    destruct (String.eqb_spec (splitext fname).2 ".feather") as [Hext|]; [|done].
    intros (_ & _ & ct & Hct & -> & ->)%FeatherRankingDatabase_init_Ok.
    split_and!; try done.
    + by apply truthy_nonempty.
    + by exists ct.
    + unfold live; simpl. by rewrite lookup_insert_eq.
    + by apply new_calls_app.
  - intros Hf Hnm Hext (ct & Hct).
    rewrite Hf, (proj2 (truthy_nonempty nm) Hnm).
    apply String.eqb_eq in Hext. rewrite Hext.
    eexists _, _. apply FeatherRankingDatabase_init_Ok.
    split_and!; [done..|]. by exists ct.
Qed.

(** X4. The constructor of the file-backed database returns exactly when
    the name is not empty, the path is a file and the store opens it.
    What it returns is a new instance with the name, the path and the
    handle of the store, the store having been opened once. When the
    store refuses the file, its exception is the one the constructor
    raises, and no instance is created. *)
Theorem FeatherRankingDatabase_init_returns fname nm w :
  ((∃ d w', FeatherRankingDatabase_init isfile fname nm w = (Ok d, w'))
   ↔ nm ≠ "" ∧ isfile fname = true ∧ ∃ ct, init_ct_db fname = Ok ct)
  ∧ (∀ d w', FeatherRankingDatabase_init isfile fname nm w = (Ok d, w') →
       (∃ ct, init_ct_db fname = Ok ct
              ∧ d = FeatherRankingDatabase (next_oid w) nm fname ct)
       ∧ live w' d
       ∧ new_calls w w' = [InitCtDb fname])
  ∧ (∀ e, nm ≠ "" → isfile fname = true → init_ct_db fname = Raise e →
       FeatherRankingDatabase_init isfile fname nm w
       = (Raise e, logged w [InitCtDb fname])).
Proof.
  split_and!.
  - split.
    + intros (d & w' & (? & ? & ct & ? & _)%FeatherRankingDatabase_init_Ok).
      split_and!; try done. by exists ct.
    + intros (? & ? & ct & ?). eexists _, _. apply FeatherRankingDatabase_init_Ok.
      split_and!; try done. by exists ct.
  - intros d w' (_ & _ & ct & Hct & -> & ->)%FeatherRankingDatabase_init_Ok.
    split_and!.
    + by exists ct.
    + unfold live; simpl. by rewrite lookup_insert_eq.
    + by apply new_calls_app.
  - intros e Hnm Hf Hct.
    by rewrite FeatherRankingDatabase_init_run, (proj2 (truthy_nonempty nm) Hnm), Hf, Hct.
Qed.

Lemma MemoryDecorator_init_Raise (arg : option RankingDatabase) w e w' :
  MemoryDecorator_init arg w = (Raise e, w') → ∃ es, w' = logged w es.
Proof.
  destruct arg as [db|]; [|intros [= _ <-]; exists []; by rewrite logged_nil].
  rewrite MemoryDecorator_init_run.
  destruct (load_full_of db); [|intros [= _ <-]; by eexists].
  cbv zeta. destruct (truthy (_name db)); [done|]. intros [= _ <-]. by eexists.
Qed.

(** X5. A constructor or [opendb] that raises leaves no instance behind:
    the instances, the next identity and the three caches are as before
    the call. *)
Theorem failed_construction_creates_nothing w e w' :
  (∃ fname nm, FeatherRankingDatabase_init isfile fname nm w = (Raise e, w'))
  ∨ (∃ fname nm, opendb isfile fname nm w = (Raise e, w'))
  ∨ (∃ arg, MemoryDecorator_init arg w = (Raise e, w')) →
  objs w' = objs w ∧ next_oid w' = next_oid w
  ∧ memo_total_genes w' = memo_total_genes w
  ∧ memo_genes w' = memo_genes w
  ∧ memo_geneset w' = memo_geneset w.
Proof.
  intros Hfail. assert (∃ es, w' = logged w es) as [es ->]; [|done].
  destruct Hfail as [(fname & nm & Hrun) | [(fname & nm & Hrun) | (arg & Hrun)]].
  - by eapply FeatherRankingDatabase_init_Raise.
  - rewrite opendb_run in Hrun.
    destruct (isfile fname); [|injection Hrun as _ <-; exists []; by rewrite logged_nil].
    destruct (truthy nm); [|injection Hrun as _ <-; exists []; by rewrite logged_nil].
    destruct (String.eqb _ _);
      [|injection Hrun as _ <-; exists []; by rewrite logged_nil].
    by eapply FeatherRankingDatabase_init_Raise.
  - by eapply MemoryDecorator_init_Raise.
Qed.

(** *** How the instances of a reachable world were built *)

Lemma FeatherRankingDatabase_init_adds fname nm w r w' :
  FeatherRankingDatabase_init isfile fname nm w = (r, w') → adds_instance isfile w w'.
Proof.
  destruct r as [d|e].
  - intros (? & ? & ct & ? & -> & ->)%FeatherRankingDatabase_init_Ok.
    right. eexists. split; [reflexivity|]. by split.
  - intros [es ->]%FeatherRankingDatabase_init_Raise. by left.
Qed.

Lemma step_adds w w' : world_ok w → step isfile w w' → adds_instance isfile w w'.
Proof.
  intros Hok Hstep.
  destruct Hstep as [fname nm r w' Hrun | fname nm r w' Hrun | arg r w' Hdb Hrun
    | d r w' L Hrun | d r w' L Hrun | d r w' L Hrun | d r w' L Hrun
    | d r w' L Hrun | d gs r w' L Hrun].
  - by eapply FeatherRankingDatabase_init_adds.
  - rewrite opendb_run in Hrun.
    destruct (isfile fname); [|injection Hrun as _ <-; by left].
    destruct (truthy nm); [|injection Hrun as _ <-; by left].
    destruct (String.eqb _ _); [|injection Hrun as _ <-; by left].
    by eapply FeatherRankingDatabase_init_adds.
  - destruct r as [d|e]; [|apply MemoryDecorator_init_Raise in Hrun as [es ->]; by left].
    destruct arg as [db|]; [|done]. rewrite MemoryDecorator_init_run in Hrun.
    destruct (load_full_of db) as [df|] eqn:Hfull; [|done]. cbv zeta in Hrun.
    destruct (truthy (_name db)); [|done]. injection Hrun as <- <-.
    right. eexists. split; [reflexivity|]. split; [done|]. split_and!; try done.
    by apply Hdb.
  - rewrite name_run in Hrun. injection Hrun as _ <-. by left.
  - destruct (total_genes_run d w Hok L) as (w2 & Hrun2 & _ & Hs & _).
    rewrite Hrun2 in Hrun. injection Hrun as _ <-. left. apply (same_objs _ _ Hs).
  - destruct (genes_run d w Hok L) as (w2 & Hrun2 & _ & Hs & _).
    rewrite Hrun2 in Hrun. injection Hrun as _ <-. left. apply (same_objs _ _ Hs).
  - destruct (geneset_run d w Hok L) as (w2 & Hrun2 & _ & Hs & _).
    rewrite Hrun2 in Hrun. injection Hrun as _ <-. left. apply (same_objs _ _ Hs).
  - rewrite load_full_run in Hrun. injection Hrun as _ <-. by left.
  - destruct (load_run d gs w Hok L) as (w2 & Hrun2 & _ & Hs).
    rewrite Hrun2 in Hrun. injection Hrun as _ <-. left. apply (same_objs _ _ Hs).
Qed.

Lemma steps_well_built w w' :
  world_ok w → (∀ i d, objs w !! i = Some d → well_built isfile d) →
  rtc (step isfile) w w' →
  ∀ i d, objs w' !! i = Some d → well_built isfile d.
Proof.
  intros Hok Hwb Hsteps. induction Hsteps as [w | w w1 w2 Hstep _ IH]; [done|].
  apply IH; [by apply (step_ok isfile w w1)|].
  destruct (step_adds w w1 Hok Hstep) as [-> | (d0 & -> & Hoid & Hd0)]; [done|].
  intros i d. rewrite lookup_insert. case_decide; [|by apply Hwb].
  intros [= <-]. destruct d0 as [j n f ct | j n db df]; simpl in Hoid; subst j.
  - destruct Hd0 as (? & ? & ?). by constructor.
  - destruct Hd0 as (-> & L & ?). constructor; try done.
    + by apply (Hwb _ _ L).
    + by apply live_oid_lt.
Qed.

Lemma instances_are_well_built_aux w d :
  reachable isfile w → live w d → well_built isfile d.
Proof.
  intros Hr L.
  by apply (steps_well_built empty_world w world_ok_empty) with (oid d).
Qed.

(** X6. Every instance that exists in a reachable world is as the
    constructors build it. Its name is not empty. A file-backed instance
    has a file that existed and the handle the store returned for that
    file; a decorator has the name of the instance it wraps, which exists
    and was created before it, and the table that instance's [load_full]
    returns. *)
Theorem instances_are_as_constructed w d :
  reachable isfile w → live w d →
  (∃ n, (name d w).1 = Ok n ∧ n ≠ "")
  ∧ match d with
    | FeatherRankingDatabase _ _ f ct =>
        isfile f = true ∧ init_ct_db f = Ok ct
    | MemoryDecorator i n db df =>
        n = _name db ∧ live w db ∧ (oid db < i)%nat
        ∧ (load_full db w).1 = Ok df
    end.
Proof.
  intros Hr L. pose proof (instances_are_well_built_aux w d Hr L) as Hwb.
  apply reachable_ok in Hr. split.
  - exists (_name d). split; [done|]. apply (ok_name _ Hr _ _ L).
  - destruct Hwb as [i n f ct ? ? ? | i db df _ Hfull Hlt]; [done|].
    destruct (live_wrapped _ _ _ _ _ Hr L) as [Ldb _].
    by rewrite load_full_run.
Qed.

(** X7. Decorating an existing database never fails on the name: it
    returns a decorator holding the table of [db.load_full()] whenever
    that call returns one, and otherwise raises the very exception that
    call raised. Decorating nothing fails the assertion at once. *)
Theorem MemoryDecorator_init_outcome w db :
  reachable isfile w → live w db →
  (∀ df, (load_full db w).1 = Ok df →
     ∃ w', MemoryDecorator_init (Some db) w
           = (Ok (MemoryDecorator (next_oid w) (_name db) db df), w')
           ∧ live w' (MemoryDecorator (next_oid w) (_name db) db df))
  ∧ (∀ e, (load_full db w).1 = Raise e →
     MemoryDecorator_init (Some db) w = (Raise e, (load_full db w).2))
  ∧ MemoryDecorator_init None w
    = (Raise (AssertionError "Database should be supplied."), w).
Proof.
  intros Hr L. apply reachable_ok in Hr.
  rewrite MemoryDecorator_init_run, load_full_run. simpl. split_and!; [| |done].
  - intros df ->.
    rewrite (proj2 (truthy_nonempty _) (ok_name _ Hr _ _ L)).
    eexists. split; [reflexivity|]. unfold live; simpl. by rewrite lookup_insert_eq.
  - by intros e ->.
Qed.

(** *** Reading the properties *)

(** X8. The properties of a decorator are those of the database it
    wraps: in a reachable world, [name], [total_genes], [genes] and
    [geneset] of an existing decorator return what they return for the
    wrapped instance. *)
Theorem decorator_delegates w i n db df :
  let Mem := MemoryDecorator i n db df in
  reachable isfile w → live w Mem →
  live w db
  ∧ (name Mem w).1 = (name db w).1
  ∧ (total_genes Mem w).1 = (total_genes db w).1
  ∧ (genes Mem w).1 = (genes db w).1
  ∧ (geneset Mem w).1 = (geneset db w).1.
Proof.
  intros Mem Hr L. pose proof (instances_are_well_built_aux w Mem Hr L) as Hwb.
  apply reachable_ok in Hr.
  destruct (live_wrapped _ _ _ _ _ Hr L) as [Ldb _].
  destruct (observables w Mem Hr L) as (-> & -> & -> & -> & _).
  destruct (observables w db Hr Ldb) as (-> & -> & -> & -> & _).
  split_and!; try done. inversion Hwb; by subst.
Qed.

(** X9. [geneset] is the set of [genes]: for an existing instance, read
    in whatever reachable worlds and whether or not the values come from
    the caches, a gene is in the one exactly when it is in the other. *)
Theorem geneset_is_the_set_of_genes w w' d :
  reachable isfile w → live w d →
  reachable isfile w' → live w' d →
  ∃ g s,
    (genes d w).1 = Ok g
    ∧ (geneset d w').1 = Ok s
    ∧ s = list_to_set g
    ∧ ∀ x, x ∈ s ↔ x ∈ g.
Proof.
  intros Hr L Hr' L'. apply reachable_ok in Hr, Hr'.
  destruct (observables w d Hr L) as (_ & _ & -> & _).
  destruct (observables w' d Hr' L') as (_ & _ & _ & -> & _).
  eexists _, _. split_and!; try done. intros x. apply elem_of_list_to_set.
Qed.

Lemma geneset_cached d w :
  world_ok w → live w d → is_Some (memo_geneset (geneset d w).2 !! oid d).
Proof.
  intros Hok L. unfold geneset. rewrite bind_run, emit_run.
  set (w0 := logged w [Call m_geneset (oid d)]).
  destruct (memo_geneset w0 !! oid d) as [v|] eqn:E.
  - rewrite (memoize_hit _ _ _ _ _ _ E). by exists v.
  - destruct (genes_run d w0) as (w2 & Hrun & _); [by apply world_ok_logged|done|].
    erewrite memoize_miss; [|done|by rewrite bind_run, Hrun].
    simpl. by rewrite lookup_insert_eq.
Qed.

(** X10. Once [geneset] of an existing instance has been read, the next
    read finds the value in the cache: it returns the same set and makes
    no call but its own entry, so [genes] is not read again and the
    caches stay as they are. *)
Theorem geneset_is_memoized w d :
  reachable isfile w → live w d →
  let w1 := (geneset d w).2 in
  geneset d w1 = ((geneset d w).1, logged w1 [Call m_geneset (oid d)]).
Proof.
  intros Hr L w1. apply reachable_ok in Hr.
  destruct (geneset_cached d w Hr L) as [v Hv]. fold w1 in Hv.
  destruct (geneset_run d w Hr L) as (w1' & Hrun & Hok1 & Hs1 & _).
  assert (w1' = w1) as -> by (unfold w1; by rewrite Hrun).
  pose proof (live_same_objects _ _ _ Hs1 L) as L1.
  destruct (observables w1 d Hok1 L1) as (_ & _ & _ & Hg & _).
  rewrite Hrun. simpl. unfold geneset in *.
  rewrite bind_run, emit_run in *.
  rewrite (memoize_hit _ _ _ _ (logged w1 [Call m_geneset (oid d)]) v Hv) in *.
  simpl in Hg. by rewrite Hg.
Qed.

(** X11. The full table of an existing instance is the one the store
    materialises for all identifiers of the handle the instance rests on,
    through any number of decorators. *)
Theorem load_full_through_decorators w d :
  reachable isfile w → live w d →
  (load_full d w).1
  = subset_to_pandas (store_of d) (all_region_or_gene_ids (store_of d)).
Proof.
  intros Hr L. apply reachable_ok in Hr. rewrite load_full_run. simpl.
  induction d as [i n f ct | i n db IH df]; [done|].
  destruct (live_wrapped _ _ _ _ _ Hr L) as [Ldb Hfull].
  simpl. rewrite <- (IH Ldb). by rewrite Hfull.
Qed.

(** X12. Reading [name], [total_genes], [genes] or [geneset] of an
    existing instance creates no instance and makes no call into the
    store and none of [load] or [load_full]: it only enters properties. *)
Theorem properties_are_read_without_loading w d :
  reachable isfile w → live w d →
  ∀ w', w' ∈ [(name d w).2; (total_genes d w).2; (genes d w).2; (geneset d w).2] →
    objs w' = objs w ∧ next_oid w' = next_oid w
    ∧ calls w' = calls w ++ new_calls w w'
    ∧ Forall (λ e, is_accessor e = true) (new_calls w w').
Proof.
  intros Hr L w' Hw'. apply reachable_ok in Hr.
  assert (same_objects w w' ∧ Forall (λ e, is_accessor e = true) (new_calls w w'))
    as [[? ? ?] ?]; [|done].
  rewrite !elem_of_cons in Hw'.
  destruct Hw' as [-> | [-> | [-> | [-> | Hw']]]]; [| | | |by apply elem_of_nil in Hw'].
  - rewrite name_run. simpl. split; [apply same_objects_logged|].
    rewrite new_calls_logged. by repeat constructor.
  - by destruct (total_genes_run d w Hr L) as (? & -> & _ & ? & ?).
  - by destruct (genes_run d w Hr L) as (? & -> & _ & ? & ?).
  - by destruct (geneset_run d w Hr L) as (? & -> & _ & ? & ?).
Qed.

(** X13. Nothing the module does changes what an existing instance
    holds: after any further operations, on this or on other instances,
    [name], [total_genes], [genes] and [geneset] return what they
    returned before; and for a decorator, which reads only the table it
    retains, so do [load_full] and [load]. *)
Theorem instances_are_stable w w' d gs :
  reachable isfile w → live w d →
  rtc (step isfile) w w' →
  live w' d
  ∧ (name d w').1 = (name d w).1
  ∧ (total_genes d w').1 = (total_genes d w).1
  ∧ (genes d w').1 = (genes d w).1
  ∧ (geneset d w').1 = (geneset d w).1
  ∧ match d with
    | MemoryDecorator _ _ _ df =>
        (load_full d w').1 = Ok df
        ∧ (load_full d w).1 = Ok df
        ∧ (load d gs w').1 = (load d gs w).1
    | FeatherRankingDatabase _ _ _ _ => True
    end.
Proof.
  intros Hr L Hsteps. apply reachable_ok in Hr.
  destruct (steps_ok isfile w w' Hr Hsteps) as [Hr' HL]. pose proof (HL d L) as L'.
  destruct (observables w d Hr L) as (-> & -> & -> & -> & _).
  destruct (observables w' d Hr' L') as (-> & -> & -> & -> & _).
  split_and!; try done. destruct d as [|i n db df]; [done|].
  by rewrite !load_full_run, !load_decorator_run.
Qed.

(** *** Loading *)

(** X14. [load] of a decorator at its two ends: a signature that names
    every column of the cached table gives the cached table itself, and a
    signature that names none of them (the empty signature, say) gives a
    table with every row and no column. *)
Theorem decorator_load_all_or_nothing i n db df gs w :
  let Mem := MemoryDecorator i n db df in
  ((∀ c, c ∈ columns df → c ∈ GeneSignature.genes gs) →
   (load Mem gs w).1 = Ok df)
  ∧ ((∀ c, c ∈ columns df → c ∉ GeneSignature.genes gs) →
     (load Mem gs w).1 = Ok {| df_index := df_index df; df_data := [] |}).
Proof.
  intros Mem. unfold Mem. rewrite load_decorator_run. simpl. unfold loc_columns.
  rewrite loc_columns_isin_data. split; intros Hall; do 2 f_equal.
  - rewrite filter_all; [by destruct df|].
    apply Forall_forall. intros c Hc. apply Hall. unfold columns.
    by apply list_elem_of_fmap_2.
  - apply filter_none, Forall_forall. intros c Hc. apply Hall. unfold columns.
    by apply list_elem_of_fmap_2.
Qed.

(** X15. Genes a file-backed database does not rank have no influence
    on [load]: two signatures that agree on the genes of the database
    give the same outcome and the same query of the store. *)
Theorem load_ignores_unknown_genes w i n f ct gs gs' :
  let D := FeatherRankingDatabase i n f ct in
  reachable isfile w → live w D →
  (∀ g x, (genes D w).1 = Ok g → x ∈ g →
          (x ∈ GeneSignature.genes gs ↔ x ∈ GeneSignature.genes gs')) →
  load D gs w = load D gs' w.
Proof.
  intros D Hr L Hagree. apply reachable_ok in Hr.
  destruct (observables w D Hr L) as (_ & _ & Hg & _).
  specialize (λ x, Hagree _ x Hg).
  unfold D, load. rewrite !bind_run, !emit_run. simpl oid.
  destruct (geneset_run D (logged w [Call m_load i])) as (w2 & Hrun & _);
    [by apply world_ok_logged|done|].
  fold D. rewrite !bind_run, Hrun.
  assert (list_to_set (genes_of D) ∩ list_to_set (GeneSignature.genes gs)
          =@{gset string}
          list_to_set (genes_of D) ∩ list_to_set (GeneSignature.genes gs')) as ->;
    [|done].
  apply set_eq. intros x. rewrite !elem_of_intersection, !elem_of_list_to_set.
  split; intros [Hx ?]; (split; [done|]); by apply (Hagree x Hx).
Qed.

(** X16. Likewise for a decorator: two signatures that agree on the
    columns of the cached table give the same table. *)
Theorem decorator_load_ignores_unknown_genes i n db df gs gs' w :
  (∀ c, c ∈ columns df →
        (c ∈ GeneSignature.genes gs ↔ c ∈ GeneSignature.genes gs')) →
  load (MemoryDecorator i n db df) gs w = load (MemoryDecorator i n db df) gs' w.
Proof.
  intros Hagree. rewrite !load_decorator_run. do 2 f_equal.
  unfold loc_columns. f_equal. rewrite !loc_columns_isin_data.
  apply filter_agree, Forall_forall. intros c Hc. apply Hagree. unfold columns.
  by apply list_elem_of_fmap_2.
Qed.

(** X17. Each [load_full] of a file-backed instance asks the store for
    the full table again: two calls in a row make two queries for all
    identifiers, and neither reads or fills a cache. *)
Theorem feather_load_full_is_not_cached i n f ct w :
  let D := FeatherRankingDatabase i n f ct in
  let w1 := (load_full D w).2 in
  let w2 := (load_full D w1).2 in
  new_calls w w2
  = [Call m_load_full i; SubsetToPandas (all_region_or_gene_ids ct);
     Call m_load_full i; SubsetToPandas (all_region_or_gene_ids ct)]
  ∧ (load_full D w1).1 = (load_full D w).1
  ∧ memo_total_genes w2 = memo_total_genes w
  ∧ memo_genes w2 = memo_genes w
  ∧ memo_geneset w2 = memo_geneset w.
Proof.
  intros D w1 w2. unfold w2, w1. rewrite !load_full_run. simpl.
  split_and!; try done. by apply new_calls_app; simpl; rewrite <- app_assoc.
Qed.

(** *** Loading at the edges *)

(** X18. [load] of an existing file-backed database with a signature
    none of whose genes it ranks (the empty signature, say) still queries
    the store, for the empty collection of identifiers of the store's
    type, and returns its answer. Where the store keeps its contract the
    answer is a table with no column and with the rows of the full
    table. *)
Theorem load_without_known_genes w i n f ct gs :
  let D := FeatherRankingDatabase i n f ct in
  let r := RegionOrGeneIDs_init ∅ (rg_type (all_region_or_gene_ids ct)) in
  reachable isfile w → live w D →
  (∀ g x, (genes D w).1 = Ok g → x ∈ GeneSignature.genes gs → x ∉ g) →
  ∃ w1,
    load D gs w = (subset_to_pandas ct r, w1)
    ∧ last (new_calls w w1) = Some (SubsetToPandas r)
    ∧ (CtdbContract →
       ∃ df full,
         subset_to_pandas ct r = Ok df
         ∧ columns df = []
         ∧ (load_full D w1).1 = Ok full
         ∧ df_index df = df_index full).
Proof.
  intros D r Hr L Hnone. apply reachable_ok in Hr.
  destruct (observables w D Hr L) as (_ & _ & Hg & _).
  specialize (λ x, Hnone _ x Hg).
  assert (Hempty : list_to_set (genes_of D) ∩ list_to_set (GeneSignature.genes gs)
                   =@{gset string} ∅).
  { apply set_eq. intros x.
    rewrite elem_of_intersection, !elem_of_list_to_set, elem_of_empty.
    split; [|done]. intros [? ?]. by apply (Hnone x). }
  destruct (load_feather_run i n f ct gs w Hr L) as (w1 & Hrun & _ & _ & Hlast).
  fold D in Hrun, Hlast. rewrite Hempty in Hrun, Hlast.
  exists w1. split_and!; try done. intros contract.
  destruct (feather_load_of i n f ct gs) as (df & full & Hdf & Hfull & Hcols & _ & Hrows).
  fold D in Hfull, Hcols. unfold load_of in Hdf. fold D in Hdf.
  rewrite Hempty in Hdf, Hcols.
  exists df, full. rewrite load_full_run. split_and!; try done.
  destruct (columns df) as [|c cs]; [done|]. exfalso.
  assert (c ∈@{gset string} ∅) as Hc; [|by apply elem_of_empty in Hc].
  rewrite <- Hcols. apply elem_of_list_to_set. by left.
Qed.

(** X19. What an existing decorator over a file-backed database loads is
    selected from the very table that the database's [load_full]
    returns. Where the store keeps its contract, the decorator and the
    database load, for any signature, tables with the same set of gene
    columns and the same rows. *)
Theorem decorator_load_agrees_with_database w i n j n' f ct df gs :
  let D := FeatherRankingDatabase j n' f ct in
  let Mem := MemoryDecorator i n D df in
  reachable isfile w → live w Mem →
  ∃ dfM,
    (load Mem gs w).1 = Ok dfM
    ∧ (load_full D w).1 = Ok df
    ∧ dfM = loc_columns df (isin (columns df) (GeneSignature.genes gs))
    ∧ (CtdbContract →
       ∃ dfD,
         (load D gs w).1 = Ok dfD
         ∧ list_to_set (columns dfM) =@{gset string} list_to_set (columns dfD)
         ∧ df_index dfM = df_index dfD).
Proof.
  intros D Mem Hr L. apply reachable_ok in Hr.
  destruct (live_wrapped _ _ _ _ _ Hr L) as [LD Hcached].
  eexists. unfold Mem. rewrite load_decorator_run, load_full_run. simpl.
  split_and!; try done. intros contract.
  destruct (feather_load_of j n' f ct gs)
    as (dfD & full & HdfD & Hfull & Hcols & Hcolsfull & Hrows).
  fold D in HdfD, Hfull, Hcols, Hcolsfull.
  rewrite Hcached in Hfull. injection Hfull as <-.
  destruct (load_run D gs w Hr LD) as (w1 & -> & _).
  exists dfD. split_and!; try done.
  rewrite Hcols, <- Hcolsfull. unfold columns at 1, loc_columns. simpl.
  by rewrite loc_columns_isin_data, filter_columns, list_to_set_filter_elem_of.
Qed.

(** *** The factory and the extension *)

(** X20. For a path whose last component ends in a character other than
    a slash or a dot, then a dot, then an extension without dot or slash:
    [opendb], given an existing file and a non-empty name, constructs the
    file-backed database when the extension is exactly "feather" (in
    lower case) and otherwise raises the [ValueError] that names the
    extension with its dot. *)
Theorem opendb_dispatches_on_the_extension stem a ext nm w :
  let fname := stem +:+ String a (String "." ext) in
  a ≠ "/"%char → a ≠ "."%char →
  "."%char ∉ list_ascii_of_string ext → "/"%char ∉ list_ascii_of_string ext →
  isfile fname = true → nm ≠ "" →
  opendb isfile fname nm w
  = if decide (ext = "feather")
    then FeatherRankingDatabase_init isfile fname nm w
    else (Raise (ValueError (String "." ext +:+ " is an unknown extension.")), w).
Proof.
  intros fname Ha1 Ha2 Hdot Hsep Hf Hnm.
  rewrite opendb_run, Hf, (proj2 (truthy_nonempty nm) Hnm).
  unfold fname. rewrite splitext_extension by done. simpl.
  destruct (decide (ext = "feather")) as [->|Hext]; [done|].
  by destruct (String.eqb_spec ext "feather").
Qed.

(** X21. A file whose name is a dot followed by an extension, such as
    ".feather", has no extension for [opendb]: it is refused with the
    [ValueError] for the empty extension, also when what follows the dot
    is "feather". *)
Theorem opendb_refuses_dot_files dir ext nm w :
  let fname := dir +:+ String "." ext in
  dir = "" ∨ (∃ dir', dir = dir' +:+ "/") →
  "."%char ∉ list_ascii_of_string ext → "/"%char ∉ list_ascii_of_string ext →
  isfile fname = true → nm ≠ "" →
  opendb isfile fname nm w = (Raise (ValueError " is an unknown extension."), w).
Proof.
  intros fname Hdir Hdot Hsep Hf Hnm.
  rewrite opendb_run, Hf, (proj2 (truthy_nonempty nm) Hnm).
  unfold fname. by rewrite splitext_dotfile.
Qed.

(** *** Textual representations *)

(** X22. [repr] tells the class and the name of an instance, and nothing
    else: two instances have the same [repr] exactly when they are of the
    same class and have the same name, whatever characters the names
    contain; [str] is the name alone, so it does not tell a decorator
    from the database it wraps. *)
Theorem repr_is_unambiguous d d' :
  (__repr__ d = __repr__ d' ↔ class_name d = class_name d' ∧ _name d = _name d')
  ∧ (_name d = _name d' → ∀ w, (__str__ d w).1 = (__str__ d' w).1).
Proof.
  split; [|by intros Hn w; unfold __str__; rewrite !name_run, Hn].
  split; [|by intros [Hc Hn]; unfold __repr__; rewrite Hc, Hn].
  unfold __repr__.
  destruct d as [i n f ct | i n db df], d' as [i' n' f' ct' | i' n' db' df']; simpl.
  - intros E. do 3 apply append_inj_l in E. by apply append_inj_r in E.
  - rewrite !append_cons. discriminate.
  - rewrite !append_cons. discriminate.
  - intros E. do 3 apply append_inj_l in E. by apply append_inj_r in E.
Qed.

End FurtherProperties.

(** ** The theorems at work on the example store *)

Section OnTheExample.
Import Example.

#[local] Instance example_contract : CtdbContract.
Proof.
  split.
  - done.
  - intros s ty. simpl. apply list_to_set_elements_L.
  - done.
  - intros t r Hty Hids. simpl in *. unfold materialise, has_ids.
    rewrite bool_decide_eq_true_2 by done.
    assert (forallb (λ g, bool_decide (g ∈ columns (fe_table t))) (ids r) = true) as ->.
    { apply (proj2 (forallb_forall (λ g, bool_decide (g ∈ columns (fe_table t))) (ids r))).
      intros g Hg. apply bool_decide_eq_true_2, Hids. by apply list_elem_of_In. }
    eexists. split; [reflexivity|]. unfold columns at 1; simpl.
    rewrite filter_columns, list_to_set_filter_elem_of.
    apply set_eq. intros g. rewrite elem_of_intersection, !elem_of_list_to_set.
    split; [by intros [_ ?]|]. intros Hg. split; [by apply Hids|done].
  - intros t r r' df df'. simpl. unfold materialise.
    destruct (has_ids r t), (has_ids r' t); try done.
    by intros [= <-] [= <-].
Qed.

Lemma db_opened_run : db_opened = (Ok db, db_opened.2).
Proof. by vm_compute. Qed.

Lemma mem_built_run : mem_built = (Ok mem, mem_built.2).
Proof. by vm_compute. Qed.

Lemma db_opened_reachable : reachable isfile db_opened.2.
Proof.
  eapply rtc_l; [|apply rtc_refl]. eapply step_opendb. apply surjective_pairing.
Qed.

Lemma mem_built_reachable : reachable isfile mem_built.2.
Proof.
  eapply rtc_r; [apply db_opened_reachable|].
  apply (step_MemoryDecorator isfile _ (Some db) mem_built.1 mem_built.2);
    [|apply surjective_pairing].
  intros d [= <-]. by vm_compute.
Qed.

Lemma db_live_opened : live db_opened.2 db.
Proof. by vm_compute. Qed.

Lemma db_live : live mem_built.2 db.
Proof. by vm_compute. Qed.

Lemma mem_live : live mem_built.2 mem.
Proof. by vm_compute. Qed.

(** The signature B, D, D, E against the genes A, B, C, D: both classes
    return exactly the columns B and D, for both motifs. *)
Example load_example :
  (load db signature mem_built.2).1
  = Ok {| df_index := ["motif1"; "motif2"];
          df_data := [("B", [1; 2]); ("D", [3; 0])] |}
  ∧ (load mem signature mem_built.2).1 = (load db signature mem_built.2).1.
Proof. by vm_compute. Qed.

(** The decorator keeps the order of the cached table, not that of the
    signature. *)
Example load_decorator_order :
  (load mem {| GeneSignature.genes := ["D"; "E"; "A"] |} mem_built.2).1
  = Ok {| df_index := ["motif1"; "motif2"];
          df_data := [("A", [0; 3]); ("D", [3; 0])] |}.
Proof. by vm_compute. Qed.

(** The first [load] of a file-backed instance fills the caches of
    [geneset] and [genes]; the second finds them filled and makes two
    calls fewer. *)
Example load_fills_the_caches :
  let w1 := (load db signature mem_built.2).2 in
  let w2 := (load db signature w1).2 in
  memo_geneset mem_built.2 !! 0%nat = None
  ∧ memo_geneset w1 !! 0%nat = Some {[ "A"; "B"; "C"; "D" ]}
  ∧ memo_genes w1 !! 0%nat = Some ["A"; "B"; "C"; "D"]
  ∧ length (new_calls mem_built.2 w1) = 4%nat
  ∧ length (new_calls w1 w2) = 3%nat.
Proof. by vm_compute. Qed.

Lemma load_columns_are_the_intersection_witness :
  ∃ df full w1,
    load db signature mem_built.2 = (Ok df, w1)
    ∧ list_to_set (columns df) =@{gset string} {[ "B"; "D" ]}
    ∧ (load_full db w1).1 = Ok full
    ∧ df_index df = df_index full.
Proof.
  destruct (load_columns_are_the_intersection isfile mem_built.2 0 "hg" hg
              {| fe_type := GENES; fe_table := hg_table |} signature
              mem_built_reachable db_live)
    as (g & r & w1 & Hg & _ & _ & _ & _ & Hstore).
  destruct (Hstore example_contract) as (df & full & Hrun & Hcols & Hfull & Hrows).
  exists df, full, w1. split_and!; try done.
  rewrite Hcols. injection Hg as <-. by vm_compute.
Defined.

Lemma load_full_decorator_agrees_witness :
  ∃ w1 w2,
    load_full db mem_built.2 = (Ok hg_table, w1)
    ∧ load_full mem w1 = (Ok hg_table, w2)
    ∧ new_calls mem_built.2 w1
      = [Call m_load_full 0;
         SubsetToPandas (all_region_or_gene_ids {| fe_type := GENES; fe_table := hg_table |})]
    ∧ new_calls w1 w2 = [Call m_load_full 1].
Proof.
  exact (load_full_decorator_agrees isfile mem_built.2 1 "hg" 0 "hg" hg
           {| fe_type := GENES; fe_table := hg_table |} hg_table
           mem_built_reachable mem_live).
Defined.

Lemma thread_count_resolution_witness :
  PyArrowThreads.pyarrow_threads int_ascii {[ "PYARROW_THREADS" := "0" ]} = 1
  ∧ PyArrowThreads.pyarrow_threads int_ascii {[ "PYARROW_THREADS" := "abc" ]} = 4.
Proof.
  destruct (thread_count_resolution int_ascii eq_refl eq_refl eq_refl)
    as (_ & H0 & Habc & _).
  exact (conj H0 Habc).
Defined.

Lemma opendb_unsupported_format_witness :
  opendb isfile "hg.rankings.db" "hg" empty_world
  = (Raise (ValueError ".db is an unknown extension."), empty_world).
Proof.
  apply (opendb_unsupported_format isfile "hg.rankings.db" "hg" empty_world);
    [reflexivity | discriminate | vm_compute; discriminate].
Defined.

Lemma FeatherRankingDatabase_init_errors_witness :
  FeatherRankingDatabase_init isfile "missing.feather" "hg" empty_world
  = (Raise (AssertionError "Database missing.feather doesn't exist."), empty_world).
Proof.
  apply (FeatherRankingDatabase_init_errors isfile "missing.feather" "hg" empty_world);
    [discriminate | reflexivity].
Defined.

Lemma total_genes_is_length_of_genes_witness :
  ∃ n g,
    (total_genes mem mem_built.2).1 = Ok n
    ∧ (genes mem mem_built.2).1 = Ok g
    ∧ n = Z.of_nat (length g).
Proof.
  destruct (total_genes_is_length_of_genes isfile mem_built.2 mem_built.2 mem
              mem_built_reachable mem_live mem_built_reachable mem_live)
    as (n & g & Hn & Hg & _ & _ & Hlen).
  exists n, g. split_and!; try done. exact (Hlen example_contract).
Defined.

Lemma decorator_load_selects_columns_witness :
  ∃ df' g,
    (load mem signature mem_built.2).1 = Ok df'
    ∧ (geneset mem mem_built.2).1 = Ok g
    ∧ list_to_set (columns df') = g ∩ list_to_set (GeneSignature.genes signature).
Proof.
  exact (proj2 (decorator_load_selects_columns isfile 1 "hg" db hg_table signature)
           example_contract mem_built.2 mem_built_reachable mem_live).
Defined.



Lemma construction_checks_in_opposite_orders_witness :
  FeatherRankingDatabase_init isfile "missing.feather" "" empty_world
  = (Raise (AssertionError "Name must be specified."), empty_world)
  ∧ opendb isfile "missing.feather" "" empty_world
    = (Raise (AssertionError "missing.feather does not exist."), empty_world).
Proof.
  exact (construction_checks_in_opposite_orders isfile "missing.feather" empty_world
           eq_refl).
Defined.

Lemma decorator_loads_once_witness :
  length (filter (λ e, is_call_of m_load_full 0 e = true)
            (new_calls db_opened.2 mem_built.2)) = 1%nat
  ∧ (∀ w2, load_full mem w2 = (Ok hg_table, logged w2 [Call m_load_full 1])).
Proof.
  destruct (decorator_loads_once isfile db_opened.2 db mem mem_built.2
              db_opened_reachable db_live_opened mem_built_run)
    as (Honce & _ & (df & Hdf & Hfull & _) & _).
  split; [exact Honce|].
  injection Hdf as <-. exact Hfull.
Defined.

End OnTheExample.

Section FurtherOnTheExample.
Import Example.

Lemma failed_construction_creates_nothing_witness :
  objs empty_world = objs empty_world ∧ next_oid empty_world = next_oid empty_world
  ∧ memo_total_genes empty_world = memo_total_genes empty_world
  ∧ memo_genes empty_world = memo_genes empty_world
  ∧ memo_geneset empty_world = memo_geneset empty_world.
Proof.
  apply (failed_construction_creates_nothing isfile empty_world
           (ValueError ".db is an unknown extension.") empty_world).
  right. left. exists "hg.rankings.db", "hg". reflexivity.
Defined.

Lemma instances_are_as_constructed_witness :
  (∃ n, (name mem mem_built.2).1 = Ok n ∧ n ≠ "")
  ∧ "hg" = _name db ∧ live mem_built.2 db ∧ (oid db < 1)%nat
  ∧ (load_full db mem_built.2).1 = Ok hg_table.
Proof.
  exact (instances_are_as_constructed isfile mem_built.2 mem mem_built_reachable mem_live).
Defined.

Lemma MemoryDecorator_init_outcome_witness :
  ∃ w', MemoryDecorator_init (Some mem) mem_built.2
        = (Ok (MemoryDecorator 2 "hg" mem hg_table), w')
        ∧ live w' (MemoryDecorator 2 "hg" mem hg_table).
Proof.
  apply (MemoryDecorator_init_outcome isfile mem_built.2 mem mem_built_reachable mem_live).
  reflexivity.
Defined.

Lemma decorator_delegates_witness :
  live mem_built.2 db
  ∧ (name mem mem_built.2).1 = (name db mem_built.2).1
  ∧ (total_genes mem mem_built.2).1 = (total_genes db mem_built.2).1
  ∧ (genes mem mem_built.2).1 = (genes db mem_built.2).1
  ∧ (geneset mem mem_built.2).1 = (geneset db mem_built.2).1.
Proof.
  exact (decorator_delegates isfile mem_built.2 1 "hg" db hg_table
           mem_built_reachable mem_live).
Defined.

Lemma geneset_is_the_set_of_genes_witness :
  ∃ g s,
    (genes db mem_built.2).1 = Ok g
    ∧ (geneset db mem_built.2).1 = Ok s
    ∧ s = list_to_set g
    ∧ ∀ x, x ∈ s ↔ x ∈ g.
Proof.
  exact (geneset_is_the_set_of_genes isfile mem_built.2 mem_built.2 db
           mem_built_reachable db_live mem_built_reachable db_live).
Defined.

Lemma geneset_is_memoized_witness :
  geneset db (geneset db mem_built.2).2
  = ((geneset db mem_built.2).1,
     logged (geneset db mem_built.2).2 [Call m_geneset 0]).
Proof.
  exact (geneset_is_memoized isfile mem_built.2 db mem_built_reachable db_live).
Defined.

Lemma load_full_through_decorators_witness :
  (load_full mem mem_built.2).1
  = subset_to_pandas (store_of mem) (all_region_or_gene_ids (store_of mem)).
Proof.
  exact (load_full_through_decorators isfile mem_built.2 mem
           mem_built_reachable mem_live).
Defined.

Lemma properties_are_read_without_loading_witness :
  let w' := (total_genes mem mem_built.2).2 in
  objs w' = objs mem_built.2 ∧ next_oid w' = next_oid mem_built.2
  ∧ calls w' = calls mem_built.2 ++ new_calls mem_built.2 w'
  ∧ Forall (λ e, is_accessor e = true) (new_calls mem_built.2 w').
Proof.
  apply (properties_are_read_without_loading isfile mem_built.2 mem
           mem_built_reachable mem_live).
  apply list_elem_of_further, list_elem_of_here.
Defined.

(** The decorator stays what it was while the database is loaded from. *)
Lemma instances_are_stable_witness :
  let w' := (load db signature mem_built.2).2 in
  live w' mem
  ∧ (name mem w').1 = (name mem mem_built.2).1
  ∧ (total_genes mem w').1 = (total_genes mem mem_built.2).1
  ∧ (genes mem w').1 = (genes mem mem_built.2).1
  ∧ (geneset mem w').1 = (geneset mem mem_built.2).1
  ∧ (load_full mem w').1 = Ok hg_table
  ∧ (load_full mem mem_built.2).1 = Ok hg_table
  ∧ (load mem signature w').1 = (load mem signature mem_built.2).1.
Proof.
  apply (instances_are_stable isfile mem_built.2 (load db signature mem_built.2).2
           mem signature mem_built_reachable mem_live).
  apply rtc_once.
  apply (step_load isfile _ db signature (load db signature mem_built.2).1);
    [exact db_live|apply surjective_pairing].
Defined.

(** The store of the example refuses a file that is not its database. *)
Lemma FeatherRankingDatabase_init_returns_witness :
  FeatherRankingDatabase_init isfile "hg.rankings.db" "hg" empty_world
  = (Raise (ExternalError "not a feather database"),
     logged empty_world [InitCtDb "hg.rankings.db"]).
Proof.
  apply (FeatherRankingDatabase_init_returns isfile "hg.rankings.db" "hg" empty_world);
    done.
Defined.

Lemma load_ignores_unknown_genes_witness :
  load db signature mem_built.2
  = load db {| GeneSignature.genes := ["D"; "B"; "Z"] |} mem_built.2.
Proof.
  apply (load_ignores_unknown_genes isfile mem_built.2 0 "hg" hg
           {| fe_type := GENES; fe_table := hg_table |} signature
           {| GeneSignature.genes := ["D"; "B"; "Z"] |} mem_built_reachable db_live).
  intros g x Hg Hx. vm_compute in Hg. injection Hg as <-.
  repeat (apply elem_of_cons in Hx as [-> | Hx]; [apply (bool_decide_unpack _); by vm_compute|]).
  by apply elem_of_nil in Hx.
Defined.

Lemma decorator_load_ignores_unknown_genes_witness :
  load mem signature mem_built.2
  = load mem {| GeneSignature.genes := ["D"; "B"; "Z"] |} mem_built.2.
Proof.
  apply (decorator_load_ignores_unknown_genes 1 "hg" db hg_table signature
           {| GeneSignature.genes := ["D"; "B"; "Z"] |} mem_built.2).
  intros c Hc. simpl in Hc.
  repeat (apply elem_of_cons in Hc as [-> | Hc]; [apply (bool_decide_unpack _); by vm_compute|]).
  by apply elem_of_nil in Hc.
Defined.

Lemma load_without_known_genes_witness :
  ∃ df full w1,
    load db {| GeneSignature.genes := ["E"; "Z"] |} mem_built.2 = (Ok df, w1)
    ∧ columns df = []
    ∧ (load_full db w1).1 = Ok full
    ∧ df_index df = df_index full.
Proof.
  destruct (load_without_known_genes isfile mem_built.2 0 "hg" hg
              {| fe_type := GENES; fe_table := hg_table |}
              {| GeneSignature.genes := ["E"; "Z"] |} mem_built_reachable db_live)
    as (w1 & Hrun & _ & Hstore).
  { intros g x Hg Hx. vm_compute in Hg. injection Hg as <-.
    repeat (apply elem_of_cons in Hx as [-> | Hx];
            [apply (bool_decide_unpack _); by vm_compute|]).
    by apply elem_of_nil in Hx. }
  destruct (Hstore example_contract) as (df & full & Hdf & Hcols & Hfull & Hrows).
  exists df, full, w1. split_and!; try done.
  fold db in Hrun. rewrite Hrun. by f_equal.
Defined.

Lemma decorator_load_agrees_with_database_witness :
  ∃ dfD dfM,
    (load db signature mem_built.2).1 = Ok dfD
    ∧ (load mem signature mem_built.2).1 = Ok dfM
    ∧ list_to_set (columns dfM) =@{gset string} list_to_set (columns dfD)
    ∧ df_index dfM = df_index dfD.
Proof.
  destruct (decorator_load_agrees_with_database isfile mem_built.2 1 "hg" 0 "hg" hg
              {| fe_type := GENES; fe_table := hg_table |} hg_table signature
              mem_built_reachable mem_live)
    as (dfM & HdfM & _ & _ & Hstore).
  destruct (Hstore example_contract) as (dfD & HdfD & Hcols & Hrows).
  by exists dfD, dfM.
Defined.

Lemma opendb_dispatches_on_the_extension_witness :
  opendb isfile hg "hg" empty_world
  = FeatherRankingDatabase_init isfile hg "hg" empty_world.
Proof.
  apply (opendb_dispatches_on_the_extension isfile "hg.genes_vs_motifs.ranking"
           "s" "feather" "hg" empty_world);
    try done; apply (bool_decide_unpack _); by vm_compute.
Defined.

Lemma opendb_refuses_dot_files_witness :
  opendb DotFile.isfile "db/.feather" "hg" empty_world
  = (Raise (ValueError " is an unknown extension."), empty_world).
Proof.
  apply (opendb_refuses_dot_files DotFile.isfile "db/" "feather" "hg" empty_world);
    try done; [by right; exists "db" | |]; apply (bool_decide_unpack _); by vm_compute.
Defined.

End FurtherOnTheExample.
